(** * Hyperbolic isometries and the Lie algebra category: a shallow embedding

    Embeds [sage/geometry/hyperbolic_space/hyperbolic_isometry.py]
    (classes [HyperbolicIsometry] and [HyperbolicIsometryUHP]) and the
    [is_abelian] method of [sage/categories/lie_algebras.py].

    Numbers are exact reals: the symbolic [sqrt] is the real (or,
    below zero, purely imaginary) square root, and [classification] is
    the method in exact arithmetic, without the rounding of [A.n()] to
    the precision of the host's real field; what is proved of it here
    is evaluated at matrices on which that arithmetic is exact, or is
    marked as a fact of exact arithmetic.
    Python exceptions are values of [exn] carried by the [result] type;
    a global name that the module never binds raises [NameError], an
    attribute that no method assigns raises [AttributeError]. *)

From Stdlib Require Import Reals Lra Psatz List String Bool ZArith Arith.
Import ListNotations.

Open Scope R_scope.

(** ** Exceptions and results *)

(** The exceptions raised by the embedded methods, one constructor per
    [raise] site (the builtin class, then the site). *)
Inductive exn : Type :=
| TypeError_not_same_model        (* __mul__: "{0} and {1} are not in the samemodel" *)
| TypeError_operand_parents       (* matrix +, -, * on different matrix spaces *)
| ValueError_invalid_isometry     (* model.isometry_test(A) in __init__ *)
| ValueError_classification       (* "something went wrong with classification: ..." *)
| TypeError_translation_length    (* "translation length is only defined for hyperbolic transformations" *)
| ValueError_identity_fixes_plane (* "the identity transformation fixes the entire hyperbolic plane" *)
| IndexError                      (* list index out of range *)
| NotImplementedError_infinite_generators (* "infinite number of generators" *)
| NameError (name : string)       (* "global name '...' is not defined" *)
| AttributeError (attribute : string). (* "... object has no attribute '...'" *)

Inductive result (A : Type) : Type :=
| Ok (a : A)
| Raise (e : exn).
Arguments Ok {A} a.
Arguments Raise {A} e.

Definition bind {A B : Type} (r : result A) (k : A -> result B) : result B :=
  match r with
  | Ok a => k a
  | Raise e => Raise e
  end.

Notation "x <- r ;; k" := (bind r (fun x => k))
  (at level 61, r at next level, right associativity).

Definition try_except_IndexError {A : Type} (r handler : result A) : result A :=
  match r with
  | Raise IndexError => handler
  | _ => r
  end.

(** Python comparisons of reals, as booleans. *)
Definition Rltb (x y : R) : bool := if Rlt_dec x y then true else false.
Definition Rgtb (x y : R) : bool := Rltb y x.
Definition Rgeb (x y : R) : bool := if Rge_dec x y then true else false.
Definition Reqb (x y : R) : bool := if Req_dec_T x y then true else false.

(** [x in l] on a list of strings. *)
Definition str_in (x : string) (l : list string) : bool :=
  existsb (String.eqb x) l.

(** ** The global names of [hyperbolic_isometry]

    The names that the module binds: those of its import statements
    (lines 43 to 52) and the five classes it defines. *)
Definition module_globals : list string :=
  ["Hom"; "Morphism"; "lazy_import"; "lazy_attribute"; "vector"; "infinity";
   "EPSILON"; "latex"; "CC"; "real"; "imag";
   "HyperbolicIsometry"; "HyperbolicIsometryUHP"; "HyperbolicIsometryPD";
   "HyperbolicIsometryKM"; "HyperbolicIsometryHM"]%string.

(** The builtins that the methods read. *)
Definition python_builtins : list string :=
  ["abs"; "bool"; "isinstance"; "range"; "getattr"; "str";
   "TypeError"; "ValueError"; "NotImplementedError"; "IndexError";
   "AttributeError"]%string.

(** Reading the global [name] inside a method of a module whose
    global names are [globals]: [value] is what the host system calls
    by that name, and the read raises unless the module or the builtins
    bind the name. *)
Definition load_global {A : Type} (globals : list string)
    (name : string) (value : A) : result A :=
  if str_in name (globals ++ python_builtins)
  then Ok value
  else Raise (NameError name).

(** ** Symbolic values: complex numbers and infinity *)

Module Cx.

(** A complex number, real part first. *)
Definition C : Type := (R * R)%type.

Definition of_R (x : R) : C := (x, 0).
Definition re (z : C) : R := fst z.
Definition im (z : C) : R := snd z.
Definition add (z w : C) : C := (re z + re w, im z + im w).
Definition sub (z w : C) : C := (re z - re w, im z - im w).
Definition mul (z w : C) : C :=
  (re z * re w - im z * im w, re z * im w + im z * re w).
Definition scale (k : R) (z : C) : C := (k * re z, k * im z).
Definition divR (z : C) (k : R) : C := (re z / k, im z / k).
Definition div (z w : C) : C :=
  let n := re w * re w + im w * im w in
  ((re z * re w + im z * im w) / n, (im z * re w - re z * im w) / n).
Definition is_zero (z : C) : bool := Reqb (re z) 0 && Reqb (im z) 0.

(** The symbolic [sqrt] at a real argument: imaginary below zero. *)
Definition sqrt_sym (x : R) : C :=
  if Rle_dec 0 x then (sqrt x, 0) else (0, sqrt (- x)).

End Cx.

(** A value of the upper half plane or of its boundary. *)
Inductive UHPValue : Type :=
| Finite (z : Cx.C)
| infinity.

(** [imag(k)]; the boundary point at infinity has imaginary part 0. *)
Definition imag (k : UHPValue) : R :=
  match k with
  | Finite z => Cx.im z
  | infinity => 0
  end.

(** [sign(x)] *)
Definition sign (x : R) : R :=
  if Rlt_dec 0 x then 1 else if Rlt_dec x 0 then -1 else 0.

(** ** 2x2 real matrices: the matrices of UHP isometries *)

Record Matrix2 : Type := mat2 { m00 : R; m01 : R; m10 : R; m11 : R }.

Module M2.

Definition det (A : Matrix2) : R := m00 A * m11 A - m01 A * m10 A.
Definition trace (A : Matrix2) : R := m00 A + m11 A.
(** [A / k] *)
Definition div (A : Matrix2) (k : R) : Matrix2 :=
  mat2 (m00 A / k) (m01 A / k) (m10 A / k) (m11 A / k).
(** [k * A] *)
Definition scale (k : R) (A : Matrix2) : Matrix2 :=
  mat2 (k * m00 A) (k * m01 A) (k * m10 A) (k * m11 A).
Definition identity_matrix : Matrix2 := mat2 1 0 0 1.

End M2.

(** ** [HyperbolicIsometryUHP]

    The methods act on [self._matrix], a 2x2 real matrix.  [EPSILON]
    comes from [hyperbolic_constants], [arccosh] and the eigenvector
    routines from the host system: all are parameters here.

    [translation_length] is the body of the method with the names
    [sqrt] and [arccosh] resolved to the host's functions;
    [UHP_translation_length] and [UHP_fixed_point_set] are the methods
    as a module with the global names [globals] runs them, every name
    that the imports do not bind read through [load_global].  The
    module as it is has [globals = module_globals]. *)

Section HyperbolicIsometryUHP.

Variable EPSILON : R.
Variable arccosh : R -> R.
(** [M.eigenvectors_right()]: triples (eigenvalue, eigenvectors,
    multiplicity); the second is the same after [M.change_ring(RDF)]. *)
Variable eigenvectors_right :
  Matrix2 -> list (Cx.C * list (Cx.C * Cx.C) * nat).
Variable eigenvectors_right_RDF :
  Matrix2 -> list (Cx.C * list (Cx.C * Cx.C) * nat).
Variable globals : list string.

Definition orientation_preserving (A : Matrix2) : bool :=
  Rgtb (M2.det A) 0.

(** [A / (abs(A.det()).sqrt())] *)
Definition normalize (A : Matrix2) : Matrix2 :=
  M2.div A (sqrt (Rabs (M2.det A))).

(** The test [tf] of [classification], on the normalized matrix. *)
Definition near_identity (A : Matrix2) : bool :=
  Rltb ((m00 A - 1) ^ 2 + m01 A ^ 2 + m10 A ^ 2 + (m11 A - 1) ^ 2) EPSILON.

Definition classification (self_matrix : Matrix2) : result string :=
  let A := self_matrix in                       (* self._matrix.n() *)
  let A := M2.div A (sqrt (Rabs (M2.det A))) in
  let tau := Rabs (M2.trace A) in
  if Rgtb (M2.det A) 0 then
    let tf := near_identity A in
    if tf then Ok "identity"%string
    else if Rltb (tau - 2) (- EPSILON) then Ok "elliptic"%string
    else if Rgtb (tau - 2) (- EPSILON) && Rltb (tau - 2) EPSILON
         then Ok "parabolic"%string
    else if Rgtb (tau - 2) EPSILON then Ok "hyperbolic"%string
    else Raise ValueError_classification
  else
    if Rltb tau EPSILON then Ok "reflection"%string
    else Ok "orientation-reversing hyperbolic"%string.

Definition translation_length (self_matrix : Matrix2) : result R :=
  let d := sqrt (M2.det self_matrix ^ 2) in
  let tau := sqrt (M2.trace (M2.div self_matrix (sqrt d)) ^ 2) in
  cls <- classification self_matrix ;;
  if str_in cls ["hyperbolic"; "oriention-reversing hyperbolic"]%string
  then Ok (2 * arccosh (tau / 2))
  else Raise TypeError_translation_length.

(** [HyperbolicIsometryUHP.translation_length], names resolved at run
    time: [sqrt] is read first (line 753). *)
Definition UHP_translation_length (self_matrix : Matrix2) : result R :=
  sqrt_ <- load_global globals "sqrt" sqrt ;;
  let d := sqrt_ (M2.det self_matrix ^ 2) in
  sqrt_ <- load_global globals "sqrt" sqrt ;;
  sqrt_' <- load_global globals "sqrt" sqrt ;;
  let tau := sqrt_ (M2.trace (M2.div self_matrix (sqrt_' d)) ^ 2) in
  cls <- classification self_matrix ;;
  if str_in cls ["hyperbolic"; "oriention-reversing hyperbolic"]%string
  then arccosh_ <- load_global globals "arccosh" arccosh ;;
       Ok (2 * arccosh_ (tau / 2))
  else Raise TypeError_translation_length.

(** [L[k][1][0]] on the list returned by [eigenvectors_right]. *)
Definition first_eigenvector
    (L : list (Cx.C * list (Cx.C * Cx.C) * nat)) (k : nat)
    : result (Cx.C * Cx.C) :=
  match nth_error L k with
  | Some (_, v :: _, _) => Ok v
  | _ => Raise IndexError
  end.

(** [[L[k][1][0] for k in range(2)]] *)
Definition two_eigenvectors
    (L : list (Cx.C * list (Cx.C * Cx.C) * nat))
    : result ((Cx.C * Cx.C) * (Cx.C * Cx.C)) :=
  p <- first_eigenvector L 0 ;;
  q <- first_eigenvector L 1 ;;
  Ok (p, q).

(** [infinity if v[1] == 0 else v[0] / v[1]] *)
Definition eigenvector_to_value (v : Cx.C * Cx.C) : UHPValue :=
  if Cx.is_zero (snd v) then infinity else Finite (Cx.div (fst v) (snd v)).

(** [HyperbolicIsometryUHP.fixed_point_set], names resolved at run
    time: [sqrt] is read first (line 784), [sign] in the elliptic
    branch, [RDF] in the handler of the last branch. *)
Definition UHP_fixed_point_set (self_matrix : Matrix2)
    : result (list UHPValue) :=
  sqrt_ <- load_global globals "sqrt" sqrt ;;
  let d := sqrt_ (M2.det self_matrix ^ 2) in
  sqrt_ <- load_global globals "sqrt" sqrt ;;
  let M := M2.div self_matrix (sqrt_ d) in
  let tau := M2.trace M ^ 2 in
  M_cls <- classification self_matrix ;;
  if String.eqb M_cls "identity" then Raise ValueError_identity_fixes_plane
  else if String.eqb M_cls "parabolic" then
    if Rltb (Rabs (m10 M)) EPSILON then Ok [infinity]
    else Ok [Finite (Cx.of_R ((m00 M - m11 M) / (2 * m10 M)))]
  else if String.eqb M_cls "elliptic" then
    sqrt_ <- load_global globals "sqrt" Cx.sqrt_sym ;;
    let d := sqrt_ (tau - 4) in
    sign_ <- load_global globals "sign" sign ;;
    Ok [Finite (Cx.divR (Cx.add (Cx.of_R (m00 M - m11 M))
                                (Cx.scale (sign_ (m10 M)) d))
                        (2 * m10 M))]
  else if String.eqb M_cls "hyperbolic" then
    if negb (Reqb (m10 M) 0) then
      sqrt_ <- load_global globals "sqrt" Cx.sqrt_sym ;;
      let d := sqrt_ (tau - 4) in
      let p_1 := Cx.divR (Cx.add (Cx.of_R (m00 M - m11 M)) d) (2 * m10 M) in
      let p_2 := Cx.divR (Cx.sub (Cx.of_R (m00 M - m11 M)) d) (2 * m10 M) in
      Ok [Finite p_1; Finite p_2]
    else
      let p_1 := Cx.of_R (m01 M / (m11 M - m00 M)) in
      let p_2 := infinity in
      Ok [Finite p_1; p_2]
  else
    pq <- try_except_IndexError
            (two_eigenvectors (eigenvectors_right M))
            (RDF_ <- load_global globals "RDF" eigenvectors_right_RDF ;;
             two_eigenvectors (RDF_ M)) ;;
    let p := eigenvector_to_value (fst pq) in
    let q := eigenvector_to_value (snd pq) in
    let pts := [p; q] in
    Ok (filter (fun k => Rgeb (imag k) 0) pts).

End HyperbolicIsometryUHP.

(** ** Square matrices of any size: [matrix(n, [...])] *)

Record Matrix : Type := mkMatrix { dim : nat; coeffs : list R }.

Module Mat.

(** The matrix spaces of two square real matrices agree when the sizes do. *)
Definition same_parent (A B : Matrix) : bool := Nat.eqb (dim A) (dim B).

Fixpoint map2 (f : R -> R -> R) (l1 l2 : list R) : list R :=
  match l1, l2 with
  | x :: l1', y :: l2' => f x y :: map2 f l1' l2'
  | _, _ => []
  end.

Definition get (A : Matrix) (i j : nat) : R :=
  nth (i * dim A + j) (coeffs A) 0.

(** [-A] *)
Definition neg (A : Matrix) : Matrix :=
  mkMatrix (dim A) (map Ropp (coeffs A)).

(** [A + B]; raises when the parents differ. *)
Definition add (A B : Matrix) : result Matrix :=
  if same_parent A B
  then Ok (mkMatrix (dim A) (map2 Rplus (coeffs A) (coeffs B)))
  else Raise TypeError_operand_parents.

(** [A - B] *)
Definition sub (A B : Matrix) : result Matrix :=
  if same_parent A B
  then Ok (mkMatrix (dim A) (map2 Rminus (coeffs A) (coeffs B)))
  else Raise TypeError_operand_parents.

Definition dot (A B : Matrix) (i j : nat) : R :=
  fold_right Rplus 0
    (map (fun k => get A i k * get B k j) (seq 0 (dim A))).

(** [A * B] *)
Definition mul (A B : Matrix) : result Matrix :=
  if same_parent A B
  then Ok (mkMatrix (dim A)
             (flat_map (fun i => map (fun j => dot A B i j) (seq 0 (dim A)))
                       (seq 0 (dim A))))
  else Raise TypeError_operand_parents.

Definition of_Matrix2 (A : Matrix2) : Matrix :=
  mkMatrix 2 [m00 A; m01 A; m10 A; m11 A].

End Mat.

(** ** The models and the abstract class [HyperbolicIsometry] *)

Inductive HyperbolicModel : Type := UHP | PD | KM | HM.

Definition short_name (m : HyperbolicModel) : string :=
  match m with
  | UHP => "UHP"
  | PD => "PD"
  | KM => "KM"
  | HM => "HM"
  end.

(** [m1 is m2]: each model is a unique object. *)
Definition model_is (m1 m2 : HyperbolicModel) : bool :=
  match m1, m2 with
  | UHP, UHP | PD, PD | KM, KM | HM, HM => true
  | _, _ => false
  end.

Record HyperbolicIsometry : Type :=
  mkIsometry { domain : HyperbolicModel; _matrix : Matrix }.

Definition matrix (self : HyperbolicIsometry) : Matrix := _matrix self.
Definition model (self : HyperbolicIsometry) : HyperbolicModel := domain self.
Definition model_name (self : HyperbolicIsometry) : string :=
  short_name (domain self).

(** [self._model]: [__init__] sets [_matrix] and, through [Morphism],
    the domain; no method assigns [_model], so reading it raises. *)
Definition _model (self : HyperbolicIsometry) : result HyperbolicModel :=
  Raise (AttributeError "_model").

Section HyperbolicIsometry.

Variable EPSILON : R.
(** The model's side of the interface, which lives in
    [hyperbolic_model]: the projectivity flag, the validity test of the
    constructor, the action on coordinates and the two factories. *)
Variable is_isometry_group_projective : HyperbolicModel -> bool.
Variable isometry_in_model : HyperbolicModel -> Matrix -> bool.
(** [abs(A)] on a matrix, as the host system defines it. *)
Variable matrix_abs : Matrix -> R.
Variable Coordinates : Type.
Variable isometry_act_on_point :
  HyperbolicModel -> Matrix -> Coordinates -> Coordinates.

Record HyperbolicPoint : Type :=
  mkPoint { point_model : HyperbolicModel; coordinates : Coordinates }.

Record HyperbolicGeodesic : Type :=
  mkGeodesic { geodesic_model : HyperbolicModel;
               start : HyperbolicPoint;
               end_ : HyperbolicPoint }.

Variable get_point : HyperbolicModel -> Coordinates -> result HyperbolicPoint.
Variable get_geodesic :
  HyperbolicModel -> HyperbolicPoint -> HyperbolicPoint ->
  result HyperbolicGeodesic.

(** [model.isometry_test(A)] raises unless [A] is an isometry of the model. *)
Definition isometry_test (m : HyperbolicModel) (A : Matrix) : result unit :=
  if isometry_in_model m A then Ok tt else Raise ValueError_invalid_isometry.

(** [HyperbolicIsometry.__init__(self, model, A)] *)
Definition __init__ (m : HyperbolicModel) (A : Matrix)
    : result HyperbolicIsometry :=
  _ <- isometry_test m A ;;
  Ok (mkIsometry m A).

Definition __eq__ (self other : HyperbolicIsometry) : result bool :=
  D <- Mat.sub (matrix self) (matrix other) ;;
  let pos_matrix := Rltb (matrix_abs D) EPSILON in
  S <- Mat.add (matrix self) (matrix other) ;;
  let neg_matrix := Rltb (matrix_abs S) EPSILON in
  if is_isometry_group_projective (domain self)
  then Ok (model_is (domain self) (domain other) && (pos_matrix || neg_matrix))
  else Ok (model_is (domain self) (domain other) && pos_matrix).

(** What may stand to the right of [*]: an isometry, a point, a
    geodesic, or any other object that answers [model_name()]. *)
Inductive Operand : Type :=
| AnIsometry (B : HyperbolicIsometry)
| APoint (p : HyperbolicPoint)
| AGeodesic (g : HyperbolicGeodesic)
| AnotherObject (its_model_name : string).

Definition operand_model_name (other : Operand) : string :=
  match other with
  | AnIsometry B => model_name B
  | APoint p => short_name (point_model p)
  | AGeodesic g => short_name (geodesic_model g)
  | AnotherObject n => n
  end.

(** What [__mul__] returns. *)
Inductive Product : Type :=
| IsometryProduct (C : HyperbolicIsometry)
| PointProduct (p : HyperbolicPoint)
| GeodesicProduct (g : HyperbolicGeodesic)
| PyNone.

(** [self * p] for a point [p]: the model test, then the second
    branch, which reads [self._model] before anything else. *)
Definition mul_point (self : HyperbolicIsometry) (p : HyperbolicPoint)
    : result HyperbolicPoint :=
  if negb (String.eqb (model_name self) (short_name (point_model p)))
  then Raise TypeError_not_same_model
  else
    m <- _model self ;;
    get_point m
      (isometry_act_on_point (model self) (_matrix self) (coordinates p)).

Definition __mul__ (self : HyperbolicIsometry) (other : Operand)
    : result Product :=
  if negb (String.eqb (model_name self) (operand_model_name other))
  then Raise TypeError_not_same_model
  else
    match other with
    | AnIsometry B =>
        P <- Mat.mul (_matrix self) (_matrix B) ;;
        C <- __init__ (domain self) P ;;
        Ok (IsometryProduct C)
    | APoint p =>
        q <- mul_point self p ;;
        Ok (PointProduct q)
    | AGeodesic g =>
        m <- _model self ;;
        s <- mul_point self (start g) ;;
        e <- mul_point self (end_ g) ;;
        h <- get_geodesic m s e ;;
        Ok (GeodesicProduct h)
    | AnotherObject _ =>
        (* the NotImplementedError is built and dropped *)
        Ok PyNone
    end.

End HyperbolicIsometry.

Arguments mkPoint {Coordinates} point_model coordinates.
Arguments point_model {Coordinates} h.
Arguments coordinates {Coordinates} h.
Arguments mkGeodesic {Coordinates} geodesic_model start end_.
Arguments AnIsometry {Coordinates} B.
Arguments APoint {Coordinates} p.
Arguments AGeodesic {Coordinates} g.
Arguments AnotherObject {Coordinates} its_model_name.
Arguments IsometryProduct {Coordinates} C.
Arguments PointProduct {Coordinates} p.
Arguments GeodesicProduct {Coordinates} g.
Arguments PyNone {Coordinates}.

(** ** [LieAlgebras.ParentMethods.is_abelian] *)

Section LieAlgebras.

Variable Element : Type.
(** [x == y] on elements. *)
Variable element_eqb : Element -> Element -> bool.

(** What [lie_algebra_generators()] returns: a family that is in
    [FiniteEnumeratedSets()], with its elements in iteration order, or
    one that is not. *)
Inductive Family : Type :=
| FiniteEnumeratedSet (elements : list Element)
| OtherFamily.

Record LieAlgebra : Type :=
  mkLieAlgebra { lie_algebra_generators : Family;
                 zero : Element;
                 _bracket_ : Element -> Element -> Element }.

Definition is_abelian (self : LieAlgebra) : result bool :=
  match lie_algebra_generators self with
  | OtherFamily => Raise NotImplementedError_infinite_generators
  | FiniteEnumeratedSet G =>
      let zero := zero self in
      Ok (forallb (fun xy => element_eqb (_bracket_ self (fst xy) (snd xy)) zero)
                  (list_prod G G))
  end.

Definition is_commutative (self : LieAlgebra) : result bool :=
  is_abelian self.

End LieAlgebras.

Arguments FiniteEnumeratedSet {Element} elements.
Arguments OtherFamily {Element}.
Arguments mkLieAlgebra {Element} lie_algebra_generators zero _bracket_.
Arguments lie_algebra_generators {Element} l.
Arguments zero {Element} l.
Arguments _bracket_ {Element} l x y.
Arguments is_abelian {Element} element_eqb self.
Arguments is_commutative {Element} element_eqb self.

(** *** An instance: the cross product on integer vectors *)

Definition Vec3 : Type := (Z * Z * Z)%type.

Definition vec3_eqb (u v : Vec3) : bool :=
  let '(a, b, c) := u in
  let '(a', b', c') := v in
  (Z.eqb a a' && Z.eqb b b' && Z.eqb c c')%bool.

Definition cross (u v : Vec3) : Vec3 :=
  let '(a, b, c) := u in
  let '(a', b', c') := v in
  (b * c' - c * b', c * a' - a * c', a * b' - b * a')%Z.

(** The Lie algebra of integer vectors under the cross product,
    generated by the three unit vectors. *)
Definition cross_product_algebra : LieAlgebra Vec3 :=
  mkLieAlgebra
    (FiniteEnumeratedSet [(1, 0, 0); (0, 1, 0); (0, 0, 1)]%Z)
    (0, 0, 0)%Z
    cross.

(** *** Instances of the model interface, for the doctests *)

(** The isometry groups of UHP and PD are projective. *)
Definition projective_UHP_PD (m : HyperbolicModel) : bool :=
  match m with
  | UHP | PD => true
  | KM | HM => false
  end.

(** The sum of the absolute values of the coefficients. *)
Definition abs_sum (A : Matrix) : R :=
  fold_right Rplus 0 (map Rabs (coeffs A)).

(** ** Further definitions *)

(** The product of two 2x2 matrices, entry by entry. *)
Definition mul2 (A B : Matrix2) : Matrix2 :=
  mat2 (m00 A * m00 B + m01 A * m10 B) (m00 A * m01 B + m01 A * m11 B)
       (m10 A * m00 B + m11 A * m10 B) (m10 A * m01 B + m11 A * m11 B).

(** *** Powers and the identity test of [HyperbolicIsometry] *)

(** [identity_matrix(n)] *)
Definition identity_matrix (n : nat) : Matrix :=
  mkMatrix n
    (flat_map (fun i => map (fun j => if Nat.eqb i j then 1 else 0) (seq 0 n))
              (seq 0 n)).

(** [A ** n] for [n >= 0]: the identity, then repeated products. *)
Fixpoint pow_nat (A : Matrix) (n : nat) : result Matrix :=
  match n with
  | O => Ok (identity_matrix (dim A))
  | S k => P <- pow_nat A k ;; Mat.mul A P
  end.

Fixpoint list_Reqb (l1 l2 : list R) : bool :=
  match l1, l2 with
  | [], [] => true
  | x :: l1', y :: l2' => Reqb x y && list_Reqb l1' l2'
  | _, _ => false
  end.

(** [A.is_one()]: [A] is the identity matrix of its size. *)
Definition is_one (A : Matrix) : bool :=
  list_Reqb (coeffs A) (coeffs (identity_matrix (dim A))).

Definition is_identity (self : HyperbolicIsometry) : bool :=
  is_one (_matrix self).

Section Powers.

Variable isometry_in_model : HyperbolicModel -> Matrix -> bool.
(** [A.inverse()] on matrices, which a negative exponent calls first. *)
Variable matrix_inverse : Matrix -> result Matrix.

(** [A ** n] on matrices, for a Python integer [n]. *)
Definition matrix_power (A : Matrix) (n : Z) : result Matrix :=
  if (n <? 0)%Z
  then B <- matrix_inverse A ;; pow_nat B (Z.to_nat (- n))
  else pow_nat A (Z.to_nat n).

Definition __pow__ (self : HyperbolicIsometry) (n : Z)
    : result HyperbolicIsometry :=
  P <- matrix_power (_matrix self) n ;;
  __init__ isometry_in_model (domain self) P.

(** [HyperbolicIsometry.inverse]: the arguments of the constructor are
    evaluated in order, [self._model] first. *)
Definition inverse (self : HyperbolicIsometry) : result HyperbolicIsometry :=
  m <- _model self ;;
  P <- matrix_inverse (matrix self) ;;
  __init__ isometry_in_model m P.

End Powers.

(** The sum of [f k] for [k] in [L]: the shape of [Mat.dot]. *)
Definition sum_over (f : nat -> R) (L : list nat) : R :=
  fold_right Rplus 0 (map f L).

(** The [n] x [n] table of the values [f i j], row after row: the shape
    of the coefficients that [Mat.mul] builds. *)
Definition table (n : nat) (f : nat -> nat -> R) : list R :=
  flat_map (fun i => map (fun j => f i j) (seq 0 n)) (seq 0 n).

(** [matrix(n, l)] accepts [l] when it has [n * n] entries. *)
Definition well_formed (A : Matrix) : Prop :=
  List.length (coeffs A) = (dim A * dim A)%nat.

(** *** The validity test of the constructor *)

(** [A.transpose()] *)
Definition transpose (A : Matrix) : Matrix :=
  mkMatrix (dim A) (table (dim A) (fun i j => Mat.get A j i)).

(** [A.det()] for the sizes that the models use, 2 and 3. *)
Definition determinant (A : Matrix) : R :=
  let a (i j : nat) := Mat.get A i j in
  match dim A with
  | 2%nat => a 0%nat 0%nat * a 1%nat 1%nat - a 0%nat 1%nat * a 1%nat 0%nat
  | 3%nat =>
      a 0%nat 0%nat
        * (a 1%nat 1%nat * a 2%nat 2%nat - a 1%nat 2%nat * a 2%nat 1%nat)
      - a 0%nat 1%nat
        * (a 1%nat 0%nat * a 2%nat 2%nat - a 1%nat 2%nat * a 2%nat 0%nat)
      + a 0%nat 2%nat
        * (a 1%nat 0%nat * a 2%nat 1%nat - a 1%nat 1%nat * a 2%nat 0%nat)
  | _ => 0
  end.

(** Modelled from the spec: the matrix of the bilinear form
    [x^2 + y^2 - z^2] that the isometries of KM and HM preserve; the
    points of HM in the doctests, such as [(0, 1, sqrt(2))], have the
    value [-1] under it. *)
Definition LORENTZ_GRAM : Matrix :=
  mkMatrix 3 [1; 0; 0; 0; 1; 0; 0; 0; -1].

(** [A.transpose() * LORENTZ_GRAM * A - LORENTZ_GRAM] *)
Definition form_defect (A : Matrix) : result Matrix :=
  AtJ <- Mat.mul (transpose A) LORENTZ_GRAM ;;
  AtJA <- Mat.mul AtJ A ;;
  Mat.sub AtJA LORENTZ_GRAM.

(** Modelled from the spec: [A] preserves the form up to [EPSILON],
    read as every entry of the defect being below [EPSILON] in absolute
    value. *)
Definition preserves_form (EPSILON : R) (A : Matrix) : bool :=
  match form_defect A with
  | Ok D => forallb (fun x => Rltb (Rabs x) EPSILON) (coeffs D)
  | Raise _ => false
  end.

(** Modelled from the spec: the size of the matrices of a model,
    2 for UHP and PD, 3 for KM and HM. *)
Definition required_dimension (m : HyperbolicModel) : nat :=
  match m with
  | UHP | PD => 2
  | KM | HM => 3
  end.

(** Modelled from the spec: [isometry_in_model], the test behind
    [model.isometry_test] in [hyperbolic_model], which is not among the
    sources.  The specification asks for a square matrix of the model's
    size with nonzero determinant which, for KM and HM, preserves the
    bilinear form up to [EPSILON]. *)
Definition isometry_in_model_spec
    (EPSILON : R) (m : HyperbolicModel) (A : Matrix) : bool :=
  Nat.eqb (dim A) (required_dimension m)
  && Nat.eqb (List.length (coeffs A)) (dim A * dim A)
  && negb (Reqb (determinant A) 0)
  && match m with
     | UHP | PD => true
     | KM | HM => preserves_form EPSILON A
     end.

(** *** The test methods of [LieAlgebras.ParentMethods] *)

Section LieAlgebraTests.

Variable Element : Type.
Variable element_eqb : Element -> Element -> bool.
(** [x + y] on elements, and the conversion [self(x)] into the algebra. *)
Variable element_add : Element -> Element -> Element.
Variable element_constructor : Element -> Element.

(** [ParentMethods.bracket]: convert both arguments, then [_bracket_]. *)
Definition bracket (self : LieAlgebra Element) (lhs rhs : Element) : Element :=
  _bracket_ self (element_constructor lhs) (element_constructor rhs).

(** The [lambda] of [_test_jacobi_identity]. *)
Definition jacobi (self : LieAlgebra Element) (x y z : Element) : Element :=
  element_add
    (element_add (bracket self x (bracket self y z))
                 (bracket self y (bracket self z x)))
    (bracket self z (bracket self x y)).

(** [_test_jacobi_identity], as the conditions it hands to
    [tester.assert_], in order, for [elts = tester.some_elements()]. *)
Definition _test_jacobi_identity
    (self : LieAlgebra Element) (elts : list Element) : list bool :=
  let zero := zero self in
  flat_map (fun x =>
    flat_map (fun y =>
      if element_eqb x y then []
      else map (fun z => element_eqb (jacobi self x y z) zero) elts)
      elts)
    elts.

(** [_test_antisymmetry], in the same way. *)
Definition _test_antisymmetry
    (self : LieAlgebra Element) (elts : list Element) : list bool :=
  let zero := zero self in
  map (fun x => element_eqb (bracket self x x) zero) elts.

End LieAlgebraTests.

(** A run of a test passes when every asserted condition is true. *)
Definition all_asserted (conditions : list bool) : bool :=
  forallb (fun b => b) conditions.

(** Componentwise addition of integer vectors. *)
Definition vec3_add (u v : Vec3) : Vec3 :=
  let '(a, b, c) := u in
  let '(a', b', c') := v in
  (a + a', b + b', c + c')%Z.

(** * Properties *)

(** ** Comparisons and symbolic square roots *)

Lemma Rltb_true (x y : R) : Rltb x y = true <-> x < y.
Proof. unfold Rltb; destruct (Rlt_dec x y); split; intros; try easy. Qed.

Lemma Rltb_false (x y : R) : Rltb x y = false <-> y <= x.
Proof.
  unfold Rltb; destruct (Rlt_dec x y); split; intros; try easy; lra.
Qed.

Lemma Rgtb_true (x y : R) : Rgtb x y = true <-> x > y.
Proof. unfold Rgtb; rewrite Rltb_true; lra. Qed.

Lemma Rgtb_false (x y : R) : Rgtb x y = false <-> x <= y.
Proof. unfold Rgtb; rewrite Rltb_false; lra. Qed.

Lemma Reqb_true (x y : R) : Reqb x y = true <-> x = y.
Proof. unfold Reqb; destruct (Req_dec_T x y); split; intros; try easy. Qed.

Lemma Reqb_false (x y : R) : Reqb x y = false <-> x <> y.
Proof. unfold Reqb; destruct (Req_dec_T x y); split; intros; try easy. Qed.

(** Turns every boolean comparison in the goal into a fact on reals. *)
Ltac cmp_cases :=
  repeat match goal with
    | |- context [Rgtb ?x ?y] =>
        let E := fresh "E" in
        destruct (Rgtb x y) eqn:E;
        [apply Rgtb_true in E | apply Rgtb_false in E]
    | |- context [Rltb ?x ?y] =>
        let E := fresh "E" in
        destruct (Rltb x y) eqn:E;
        [apply Rltb_true in E | apply Rltb_false in E]
    | |- context [Reqb ?x ?y] =>
        let E := fresh "E" in
        destruct (Reqb x y) eqn:E;
        [apply Reqb_true in E | apply Reqb_false in E]
    end.

(** ** Normalization of a 2x2 matrix *)

Lemma matrix2_eq (a b c d a' b' c' d' : R) :
  a = a' -> b = b' -> c = c' -> d = d' -> mat2 a b c d = mat2 a' b' c' d'.
Proof. intros; subst; reflexivity. Qed.

Lemma normalize_unimodular (A : Matrix2) :
  Rabs (M2.det A) = 1 -> normalize A = A.
Proof.
  intros H. unfold normalize. rewrite H, sqrt_1.
  destruct A as [a b c d]. unfold M2.div; simpl.
  apply matrix2_eq; field.
Qed.

Lemma sqrt_abs_det_pos (A : Matrix2) :
  M2.det A <> 0 -> 0 < sqrt (Rabs (M2.det A)).
Proof. intros H. apply sqrt_lt_R0, Rabs_pos_lt, H. Qed.

(** ** Classification *)

Section ClassificationProperties.

Variable EPSILON : R.

(** The body of [classification] in terms of the normalized matrix. *)
Lemma classification_normalize (A : Matrix2) :
  classification EPSILON A =
  let M := normalize A in
  let tau := Rabs (M2.trace M) in
  if Rgtb (M2.det M) 0 then
    if near_identity EPSILON M then Ok "identity"%string
    else if Rltb (tau - 2) (- EPSILON) then Ok "elliptic"%string
    else if Rgtb (tau - 2) (- EPSILON) && Rltb (tau - 2) EPSILON
         then Ok "parabolic"%string
    else if Rgtb (tau - 2) EPSILON then Ok "hyperbolic"%string
    else Raise ValueError_classification
  else
    if Rltb tau EPSILON then Ok "reflection"%string
    else Ok "orientation-reversing hyperbolic"%string.
Proof. reflexivity. Qed.

End ClassificationProperties.

(** ** Evaluation at concrete matrices *)

Lemma Rabs_unit (x : R) : x = 1 \/ x = -1 -> Rabs x = 1.
Proof.
  intros H. unfold Rabs. destruct (Rcase_abs x); lra.
Qed.

(** Unfolds determinant, trace and absolute values everywhere and
    leaves the arithmetic to [lra] and [nra]. *)
Ltac real_arith :=
  unfold near_identity, M2.det, M2.trace, M2.identity_matrix, M2.scale in *;
  cbn [m00 m01 m10 m11] in *;
  unfold Rabs in *;
  repeat match goal with
    | |- context [Rcase_abs ?x] => destruct (Rcase_abs x)
    | H : context [Rcase_abs ?x] |- _ => destruct (Rcase_abs x)
    end;
  solve [lra | nra].

(** Proves that a concrete matrix has determinant 1 or -1. *)
Ltac unimodular :=
  apply Rabs_unit; unfold M2.det, M2.identity_matrix, M2.scale;
  cbn [m00 m01 m10 m11];
  first [left; lra | right; lra | left; nra | right; nra].

(** Decides the classification of a matrix of determinant 1 or -1. *)
Ltac classify :=
  rewrite classification_normalize;
  rewrite normalize_unimodular by unimodular;
  cbv zeta; unfold near_identity;
  repeat (cmp_cases; cbn [andb]);
  first [reflexivity | exfalso; real_arith].

(** The doctests of [classification]. *)
Example classification_identity (EPSILON : R) :
  0 < EPSILON -> classification EPSILON M2.identity_matrix = Ok "identity"%string.
Proof. intros H. classify. Qed.

Example classification_parabolic (EPSILON : R) :
  0 < EPSILON <= 1 ->
  classification EPSILON (mat2 1 1 0 1) = Ok "parabolic"%string.
Proof. intros H. classify. Qed.

Example classification_reflection (EPSILON : R) :
  0 < EPSILON ->
  classification EPSILON (mat2 (-1) 0 0 1) = Ok "reflection"%string.
Proof. intros H. classify. Qed.

Example classification_hyperbolic (EPSILON : R) :
  0 <= EPSILON < / 2 ->
  classification EPSILON (mat2 2 0 0 (/ 2)) = Ok "hyperbolic"%string.
Proof. intros H. classify. Qed.

(** ** Scaling *)

Lemma det_scale (c : R) (A : Matrix2) :
  M2.det (M2.scale c A) = c * c * M2.det A.
Proof. destruct A as [a b c' d]. unfold M2.det, M2.scale; simpl. ring. Qed.

Lemma sqrt_abs_det_scale (c : R) (A : Matrix2) :
  sqrt (Rabs (M2.det (M2.scale c A))) = Rabs c * sqrt (Rabs (M2.det A)).
Proof.
  rewrite det_scale, Rabs_mult, sqrt_mult by apply Rabs_pos.
  f_equal. rewrite Rabs_mult. apply sqrt_square, Rabs_pos.
Qed.

(** Scaling by a positive number leaves the normalized matrix alone. *)
Lemma normalize_scale_pos (c : R) (A : Matrix2) :
  0 < c -> M2.det A <> 0 -> normalize (M2.scale c A) = normalize A.
Proof.
  intros Hc Hd. unfold normalize. rewrite sqrt_abs_det_scale.
  pose proof (sqrt_abs_det_pos A Hd) as Hs.
  rewrite (Rabs_pos_eq c) by lra.
  destruct A as [a b c' d]. unfold M2.div, M2.scale; cbn [m00 m01 m10 m11].
  apply matrix2_eq; field; lra.
Qed.

(** Scaling by a negative number negates the normalized matrix. *)
Lemma normalize_scale_neg (c : R) (A : Matrix2) :
  c < 0 -> M2.det A <> 0 ->
  normalize (M2.scale c A) = M2.scale (-1) (normalize A).
Proof.
  intros Hc Hd. unfold normalize. rewrite sqrt_abs_det_scale.
  pose proof (sqrt_abs_det_pos A Hd) as Hs.
  rewrite (Rabs_left c) by lra.
  destruct A as [a b c' d]. unfold M2.div, M2.scale; cbn [m00 m01 m10 m11].
  apply matrix2_eq; field; lra.
Qed.

(** In exact arithmetic the classification is invariant under scaling
    by a positive number. *)
Lemma classification_scale_pos (EPSILON c : R) (A : Matrix2) :
  0 < c -> M2.det A <> 0 ->
  classification EPSILON (M2.scale c A) = classification EPSILON A.
Proof.
  intros Hc Hd. rewrite !classification_normalize.
  now rewrite normalize_scale_pos.
Qed.

(** In exact arithmetic the classification can change under scaling
    by a negative number only through the identity test, which looks
    at [M] and not at [-M]. *)
Lemma classification_scale_neg (EPSILON c : R) (A : Matrix2) :
  c < 0 -> M2.det A <> 0 ->
  near_identity EPSILON (normalize A) = false ->
  near_identity EPSILON (M2.scale (-1) (normalize A)) = false ->
  classification EPSILON (M2.scale c A) = classification EPSILON A.
Proof.
  intros Hc Hd H1 H2. rewrite !classification_normalize.
  rewrite normalize_scale_neg by assumption. cbv zeta.
  rewrite H1, H2.
  replace (M2.det (M2.scale (-1) (normalize A))) with (M2.det (normalize A))
    by (rewrite det_scale; ring).
  replace (Rabs (M2.trace (M2.scale (-1) (normalize A))))
    with (Rabs (M2.trace (normalize A))).
  - reflexivity.
  - destruct (normalize A) as [a b c' d].
    unfold M2.trace, M2.scale; cbn [m00 m11].
    replace (-1 * a + -1 * d) with (- (a + d)) by ring.
    now rewrite Rabs_Ropp.
Qed.

(** C4: scaling by -1 changes the classification of the identity
    matrix: for a tolerance [0 < EPSILON <= 8], [identity_matrix(2)] is
    'identity' and [-identity_matrix(2)] is 'parabolic'. *)
Theorem classification_minus_identity (EPSILON : R) :
  0 < EPSILON <= 8 ->
  M2.det M2.identity_matrix <> 0 /\
  classification EPSILON M2.identity_matrix = Ok "identity"%string /\
  classification EPSILON (M2.scale (-1) M2.identity_matrix) =
  Ok "parabolic"%string.
Proof.
  intros H. split; [| split].
  - unfold M2.det, M2.identity_matrix; cbn [m00 m01 m10 m11]; lra.
  - classify.
  - classify.
Qed.

Lemma classification_minus_identity_witness :
  classification (1 / 1000000000) (M2.scale (-1) M2.identity_matrix) <>
  classification (1 / 1000000000) M2.identity_matrix.
Proof.
  destruct (classification_minus_identity (1 / 1000000000)) as (_ & H1 & H2).
  - lra.
  - rewrite H1, H2. discriminate.
Defined.

(** ** Translation length *)

Lemma sqrt_pow2_abs (x : R) : sqrt (x ^ 2) = Rabs x.
Proof. rewrite <- Rsqr_pow2. apply sqrt_Rsqr_abs. Qed.

(** The [tau] of [translation_length] and [fixed_point_set] is that of
    [classification]: both divide by [sqrt |det|]. *)
Lemma div_sqrt_sqrt_det (A : Matrix2) :
  M2.div A (sqrt (sqrt (M2.det A ^ 2))) = normalize A.
Proof. unfold normalize. now rewrite sqrt_pow2_abs. Qed.

Section TranslationLength.

Variable EPSILON : R.
Variable arccosh : R -> R.

(** On the class 'hyperbolic' the length is [2 * arccosh(tau / 2)]. *)
Lemma translation_length_hyperbolic (A : Matrix2) :
  classification EPSILON A = Ok "hyperbolic"%string ->
  translation_length EPSILON arccosh A =
  Ok (2 * arccosh (Rabs (M2.trace (normalize A)) / 2)).
Proof.
  intros H. unfold translation_length. rewrite H. cbn [bind].
  rewrite div_sqrt_sqrt_det, sqrt_pow2_abs. reflexivity.
Qed.

(** On every class that [classification] can return other than
    'hyperbolic', [translation_length] raises. *)
Lemma translation_length_not_hyperbolic (A : Matrix2) (cls : string) :
  classification EPSILON A = Ok cls ->
  cls <> "hyperbolic"%string ->
  cls <> "oriention-reversing hyperbolic"%string ->
  translation_length EPSILON arccosh A = Raise TypeError_translation_length.
Proof.
  intros H H1 H2. unfold translation_length. rewrite H. cbn [bind].
  unfold str_in; cbn [existsb].
  apply String.eqb_neq in H1, H2. now rewrite H1, H2.
Qed.

(** C1: on the class 'orientation-reversing hyperbolic' the method
    raises the TypeError "translation length is only defined for
    hyperbolic transformations": the list it tests the class against
    spells the second name 'oriention-reversing hyperbolic'. *)
Theorem translation_length_orientation_reversing (A : Matrix2) :
  classification EPSILON A = Ok "orientation-reversing hyperbolic"%string ->
  translation_length EPSILON arccosh A = Raise TypeError_translation_length.
Proof.
  intros H. unfold translation_length. rewrite H. reflexivity.
Qed.

(** The doctest: [[2,0],[0,1/2]] has translation length 2*arccosh(5/4). *)
Lemma translation_length_example :
  0 <= EPSILON < / 2 ->
  translation_length EPSILON arccosh (mat2 2 0 0 (/ 2)) =
  Ok (2 * arccosh (5 / 4)).
Proof.
  intros H.
  rewrite translation_length_hyperbolic
    by (apply classification_hyperbolic; exact H).
  rewrite normalize_unimodular by unimodular.
  do 3 f_equal. real_arith.
Qed.

End TranslationLength.

Lemma translation_length_orientation_reversing_witness :
  classification (1 / 1000000000) (mat2 2 0 0 (- / 2)) =
    Ok "orientation-reversing hyperbolic"%string /\
  translation_length (1 / 1000000000) (fun x => ln (x + sqrt (x ^ 2 - 1)))
    (mat2 2 0 0 (- / 2)) = Raise TypeError_translation_length.
Proof.
  assert (H : classification (1 / 1000000000) (mat2 2 0 0 (- / 2)) =
              Ok "orientation-reversing hyperbolic"%string) by classify.
  split; [exact H |].
  apply translation_length_orientation_reversing; exact H.
Defined.

(** ** Names that the module does not bind *)

(** [sqrt] is not among the global names of the module. *)
Lemma load_global_sqrt {A : Type} (value : A) :
  load_global module_globals "sqrt" value = Raise (NameError "sqrt").
Proof. reflexivity. Qed.

Section UnboundNames.

Variable EPSILON : R.
Variable arccosh : R -> R.
Variable eigenvectors_right :
  Matrix2 -> list (Cx.C * list (Cx.C * Cx.C) * nat).
Variable eigenvectors_right_RDF :
  Matrix2 -> list (Cx.C * list (Cx.C * Cx.C) * nat).

(** In a module that binds [sqrt] and [arccosh],
    [UHP_translation_length] is [translation_length]. *)
Lemma translation_length_names_bound (globals : list string) (A : Matrix2) :
  str_in "sqrt" (globals ++ python_builtins) = true ->
  str_in "arccosh" (globals ++ python_builtins) = true ->
  UHP_translation_length EPSILON arccosh globals A =
  translation_length EPSILON arccosh A.
Proof.
  intros Hs Ha. unfold UHP_translation_length, translation_length, load_global.
  rewrite Hs. cbn [bind].
  destruct (classification EPSILON A) as [cls | e]; cbn [bind]; [| reflexivity].
  destruct (str_in cls _); [| reflexivity].
  rewrite Ha. reflexivity.
Qed.

(** C5: as the module is, [fixed_point_set] raises [NameError] for
    the unbound name [sqrt] on every matrix, those classified
    'hyperbolic' among them; it returns no list of points. *)
Theorem fixed_point_set_raises_NameError (A : Matrix2) :
  UHP_fixed_point_set EPSILON eigenvectors_right eigenvectors_right_RDF
    module_globals A = Raise (NameError "sqrt").
Proof.
  unfold UHP_fixed_point_set. rewrite load_global_sqrt. reflexivity.
Qed.

(** C8: on a matrix classified 'identity', [fixed_point_set] as the
    module is raises [NameError] for the unbound name [sqrt], which is
    not the ValueError "the identity transformation fixes the entire
    hyperbolic plane" of its docstring. *)
Theorem fixed_point_set_identity_NameError (A : Matrix2) :
  classification EPSILON A = Ok "identity"%string ->
  UHP_fixed_point_set EPSILON eigenvectors_right eigenvectors_right_RDF
    module_globals A = Raise (NameError "sqrt") /\
  UHP_fixed_point_set EPSILON eigenvectors_right eigenvectors_right_RDF
    module_globals A <> Raise ValueError_identity_fixes_plane.
Proof.
  intros _. unfold UHP_fixed_point_set. rewrite load_global_sqrt.
  split; [reflexivity | discriminate].
Qed.

End UnboundNames.

(** C5, at the two hyperbolic matrices of the doctests,
    [[2,0],[0,1/2]] and [[0,3],[-1/3,6]], with tolerance [10^-9]. *)
Example fixed_point_set_hyperbolic_doctests :
  classification (1 / 1000000000) (mat2 2 0 0 (/ 2)) =
    Ok "hyperbolic"%string /\
  UHP_fixed_point_set (1 / 1000000000) (fun _ => []) (fun _ => [])
    module_globals (mat2 2 0 0 (/ 2)) = Raise (NameError "sqrt") /\
  classification (1 / 1000000000) (mat2 0 3 (- / 3) 6) =
    Ok "hyperbolic"%string /\
  UHP_fixed_point_set (1 / 1000000000) (fun _ => []) (fun _ => [])
    module_globals (mat2 0 3 (- / 3) 6) = Raise (NameError "sqrt").
Proof.
  split; [| split; [| split]].
  - classify.
  - unfold UHP_fixed_point_set. now rewrite load_global_sqrt.
  - classify.
  - unfold UHP_fixed_point_set. now rewrite load_global_sqrt.
Qed.

(** C8, at [identity_matrix(2)] with tolerance [10^-9]. *)
Lemma fixed_point_set_identity_NameError_witness :
  UHP_fixed_point_set (1 / 1000000000) (fun _ => []) (fun _ => [])
    module_globals M2.identity_matrix = Raise (NameError "sqrt") /\
  UHP_fixed_point_set (1 / 1000000000) (fun _ => []) (fun _ => [])
    module_globals M2.identity_matrix <> Raise ValueError_identity_fixes_plane.
Proof.
  apply fixed_point_set_identity_NameError.
  apply classification_identity. lra.
Defined.

(** ** Equality and composition of isometries *)


Lemma short_name_inj (m1 m2 : HyperbolicModel) :
  short_name m1 = short_name m2 -> m1 = m2.
Proof. destruct m1, m2; simpl; intros H; congruence. Qed.

Lemma map2_sub_neg (l1 l2 : list R) :
  Mat.map2 Rminus l1 (map Ropp l2) = Mat.map2 Rplus l1 l2.
Proof.
  revert l2. induction l1 as [| x l1 IH]; intros [| y l2]; simpl; try reflexivity.
  rewrite IH. f_equal. ring.
Qed.

(** [A - (-B)] is [A + B], and it exists exactly when [A + B] does. *)
Lemma sub_neg_add (A B : Matrix) : Mat.sub A (Mat.neg B) = Mat.add A B.
Proof.
  unfold Mat.sub, Mat.add, Mat.same_parent, Mat.neg; cbn [dim coeffs].
  now rewrite map2_sub_neg.
Qed.

Lemma sub_add_same_parent (A B : Matrix) :
  (exists D S, Mat.sub A B = Ok D /\ Mat.add A B = Ok S) \/
  (Mat.sub A B = Raise TypeError_operand_parents /\
   Mat.add A B = Raise TypeError_operand_parents).
Proof.
  unfold Mat.sub, Mat.add. destruct (Mat.same_parent A B); eauto.
Qed.

Section IsometryProperties.

Variable EPSILON : R.
Variable is_isometry_group_projective : HyperbolicModel -> bool.
Variable isometry_in_model : HyperbolicModel -> Matrix -> bool.
Variable matrix_abs : Matrix -> R.
Variable Coordinates : Type.
Variable isometry_act_on_point :
  HyperbolicModel -> Matrix -> Coordinates -> Coordinates.
Variable get_point :
  HyperbolicModel -> Coordinates -> result (HyperbolicPoint Coordinates).
Variable get_geodesic :
  HyperbolicModel -> HyperbolicPoint Coordinates ->
  HyperbolicPoint Coordinates -> result (HyperbolicGeodesic Coordinates).

(** Whenever the two matrices have the same size, [A == B] returns a
    boolean. *)
Lemma eq_isometry_total (A B : HyperbolicIsometry) :
  dim (matrix A) = dim (matrix B) ->
  exists b, __eq__ EPSILON is_isometry_group_projective matrix_abs A B = Ok b.
Proof.
  intros H. unfold __eq__, Mat.sub, Mat.add, Mat.same_parent.
  rewrite H, Nat.eqb_refl. cbn [bind].
  destruct (is_isometry_group_projective (domain A)); eauto.
Qed.

(** A matrix that passes the validity test has the size of its model. *)
Lemma isometry_in_model_spec_dim (m : HyperbolicModel) (A : Matrix) :
  isometry_in_model_spec EPSILON m A = true ->
  dim A = required_dimension m.
Proof.
  unfold isometry_in_model_spec. intros H.
  apply andb_prop in H as [H _]. apply andb_prop in H as [H _].
  apply andb_prop in H as [H _]. now apply Nat.eqb_eq in H.
Qed.

(** In UHP and PD the product of two valid matrices is valid: the
    determinant of the product is the product of the determinants. *)
Lemma isometry_in_model_spec_mul (m : HyperbolicModel) (A B P : Matrix) :
  m = UHP \/ m = PD ->
  isometry_in_model_spec EPSILON m A = true ->
  isometry_in_model_spec EPSILON m B = true ->
  Mat.mul A B = Ok P ->
  isometry_in_model_spec EPSILON m P = true.
Proof.
  intros Hm HA HB HP.
  assert (Hd : required_dimension m = 2%nat) by (destruct Hm; subst; reflexivity).
  assert (Hr : forall X, isometry_in_model_spec EPSILON m X = true ->
               exists a b c d, X = mkMatrix 2 [a; b; c; d] /\
                               a * d - b * c <> 0).
  { intros [n l]. unfold isometry_in_model_spec. cbn [dim coeffs].
    rewrite Hd. intros H.
    apply andb_prop in H as [H _]. apply andb_prop in H as [H Hdet].
    apply andb_prop in H as [Hn Hl].
    apply Nat.eqb_eq in Hn. subst n. apply Nat.eqb_eq in Hl.
    destruct l as [| a [| b [| c [| d [| x l]]]]]; try discriminate Hl.
    exists a, b, c, d. split; [reflexivity |].
    apply negb_true_iff, Reqb_false in Hdet.
    unfold determinant, Mat.get in Hdet. cbn in Hdet. exact Hdet. }
  destruct (Hr A HA) as (a & b & c & d & -> & HdA).
  destruct (Hr B HB) as (a' & b' & c' & d' & -> & HdB).
  unfold Mat.mul, Mat.same_parent, Mat.dot, Mat.get in HP.
  cbn [dim coeffs Nat.eqb seq flat_map map app fold_right nth Nat.mul Nat.add]
    in HP.
  injection HP as <-.
  unfold isometry_in_model_spec. cbn [dim coeffs List.length].
  rewrite Hd. cbn [Nat.eqb Nat.mul Nat.add andb].
  replace (match m with UHP | PD => true | _ => preserves_form EPSILON _ end)
    with true by (destruct Hm; subst; reflexivity).
  rewrite andb_true_r. apply negb_true_iff, Reqb_false.
  unfold determinant, Mat.get.
  cbn [dim coeffs nth Nat.mul Nat.add].
  intros H. apply (Rmult_integral_contrapositive_currified _ _ HdA HdB).
  rewrite <- H. ring.
Qed.

(** C6, amended: [A * x] raises the TypeError of differing models
    whenever the model names of [A] and [x] differ.  For two valid
    isometries [A] and [B] of the same model the matrix product [P]
    exists, and [A * B] is the isometry of that model with matrix [P]
    when [P] passes the validity test and the invalid-isometry
    ValueError otherwise; in UHP and PD the product always passes. *)
Theorem mul_isometry_valid (A : HyperbolicIsometry) :
  (forall x : Operand Coordinates,
      model_name A <> operand_model_name Coordinates x ->
      __mul__ (isometry_in_model_spec EPSILON) Coordinates
              isometry_act_on_point get_point get_geodesic A x =
      Raise TypeError_not_same_model) /\
  (forall B : HyperbolicIsometry,
      domain A = domain B ->
      isometry_in_model_spec EPSILON (domain A) (matrix A) = true ->
      isometry_in_model_spec EPSILON (domain B) (matrix B) = true ->
      exists P : Matrix,
        Mat.mul (matrix A) (matrix B) = Ok P /\
        __mul__ (isometry_in_model_spec EPSILON) Coordinates
                isometry_act_on_point get_point get_geodesic
                A (AnIsometry B) =
        (if isometry_in_model_spec EPSILON (domain A) P
         then Ok (IsometryProduct (mkIsometry (domain A) P))
         else Raise ValueError_invalid_isometry) /\
        (domain A = UHP \/ domain A = PD ->
         isometry_in_model_spec EPSILON (domain A) P = true)).
Proof.
  split.
  - intros x H. unfold __mul__.
    apply String.eqb_neq in H. now rewrite H.
  - intros B Hm HA HB.
    assert (Hdim : dim (matrix A) = dim (matrix B)).
    { rewrite (isometry_in_model_spec_dim _ _ HA),
              (isometry_in_model_spec_dim _ _ HB). now rewrite Hm. }
    destruct (Mat.mul (matrix A) (matrix B)) as [P | e] eqn:HP.
    2:{ unfold Mat.mul, Mat.same_parent in HP.
        rewrite Hdim, Nat.eqb_refl in HP. discriminate HP. }
    exists P. split; [reflexivity |]. split.
    + unfold __mul__; cbn [operand_model_name].
      unfold model_name. rewrite Hm, String.eqb_refl. cbn [negb].
      unfold matrix in HP. rewrite HP. cbn [bind].
      unfold __init__, isometry_test. rewrite <- Hm.
      now destruct (isometry_in_model_spec EPSILON (domain A) P).
    + intros Hmod.
      apply (isometry_in_model_spec_mul (domain A) (matrix A) (matrix B) P);
        try assumption.
      now rewrite Hm.
Qed.

(** The constructor's test is the only other way out of the first branch. *)
Lemma mul_isometry_invalid (A B : HyperbolicIsometry) (P : Matrix) :
  domain A = domain B ->
  Mat.mul (matrix A) (matrix B) = Ok P ->
  isometry_in_model (domain A) P = false ->
  __mul__ isometry_in_model Coordinates isometry_act_on_point
          get_point get_geodesic A (AnIsometry B) =
  Raise ValueError_invalid_isometry.
Proof.
  intros Hm HP Hv. unfold __mul__; cbn [operand_model_name].
  unfold model_name. rewrite Hm, String.eqb_refl. cbn [negb].
  unfold matrix in HP. rewrite HP. cbn [bind].
  unfold __init__, isometry_test. rewrite <- Hm, Hv. reflexivity.
Qed.

(** C10: for an operand of the same model name that is neither an
    isometry, a point nor a geodesic, [A * x] returns [None] and raises
    nothing. *)
Theorem mul_other_returns_None (A : HyperbolicIsometry) (name : string) :
  model_name A = name ->
  __mul__ isometry_in_model Coordinates isometry_act_on_point
          get_point get_geodesic A (AnotherObject name) = Ok PyNone.
Proof.
  intros H. unfold __mul__; cbn [operand_model_name].
  now rewrite H, String.eqb_refl.
Qed.

End IsometryProperties.

(** The doctest of [__mul__]: [[3,1],[1,2]] * [[5,2],[1,2]] is
    [[16,8],[7,6]]. *)
Example mul_doctest :
  Mat.mul (mkMatrix 2 [3; 1; 1; 2]) (mkMatrix 2 [5; 2; 1; 2]) =
  Ok (mkMatrix 2 [16; 8; 7; 6]).
Proof.
  unfold Mat.mul, Mat.same_parent, Mat.dot, Mat.get.
  cbn [dim coeffs Nat.eqb seq flat_map map app fold_right nth Nat.mul Nat.add].
  do 2 f_equal. repeat (f_equal; try lra).
Qed.

(** The defect of [diag(d, 1, 1)] from preserving the form. *)
Lemma form_defect_diagonal (d : R) :
  form_defect (mkMatrix 3 [d; 0; 0; 0; 1; 0; 0; 0; 1]) =
  Ok (mkMatrix 3 [d * d - 1; 0; 0; 0; 0; 0; 0; 0; 0]).
Proof.
  unfold form_defect, transpose, table, LORENTZ_GRAM, Mat.mul, Mat.sub,
    Mat.same_parent, Mat.dot, Mat.get.
  cbn [dim coeffs Nat.eqb seq flat_map map app fold_right nth Nat.mul Nat.add
       bind Mat.map2].
  do 2 f_equal. repeat (f_equal; try ring).
Qed.

(** [diag(d, 1, 1)] is a valid matrix of HM exactly when [d <> 0] and
    [|d^2 - 1| < EPSILON]. *)
Lemma isometry_in_model_spec_diagonal (EPSILON d : R) :
  0 < EPSILON ->
  isometry_in_model_spec EPSILON HM (mkMatrix 3 [d; 0; 0; 0; 1; 0; 0; 0; 1]) =
  negb (Reqb d 0) && Rltb (Rabs (d * d - 1)) EPSILON.
Proof.
  intros He. unfold isometry_in_model_spec, preserves_form.
  rewrite form_defect_diagonal.
  cbn [dim coeffs List.length required_dimension Nat.eqb Nat.mul Nat.add
       andb forallb].
  replace (determinant (mkMatrix 3 [d; 0; 0; 0; 1; 0; 0; 0; 1])) with d
    by (unfold determinant, Mat.get;
        cbn [dim coeffs nth Nat.mul Nat.add]; ring).
  assert (H0 : Rltb (Rabs 0) EPSILON = true)
    by (apply Rltb_true; rewrite Rabs_R0; exact He).
  rewrite !H0. now rewrite !andb_true_r.
Qed.

(** C6, refuted in HM with tolerance [10^-9]: [A = diag(1 + 4/10^10, 1, 1)]
    passes the validity test, so it is a valid isometry of HM, and
    [A * A] raises the invalid-isometry ValueError. *)
Lemma mul_valid_isometries_raises :
  isometry_in_model_spec (1 / 1000000000) HM
    (mkMatrix 3 [1 + 4 / 10000000000; 0; 0; 0; 1; 0; 0; 0; 1]) = true /\
  __mul__ (isometry_in_model_spec (1 / 1000000000)) R (fun _ _ c => c)
          (fun m c => Ok (mkPoint m c)) (fun m s e => Ok (mkGeodesic m s e))
          (mkIsometry HM
             (mkMatrix 3 [1 + 4 / 10000000000; 0; 0; 0; 1; 0; 0; 0; 1]))
          (AnIsometry
             (mkIsometry HM
                (mkMatrix 3 [1 + 4 / 10000000000; 0; 0; 0; 1; 0; 0; 0; 1]))) =
  Raise ValueError_invalid_isometry.
Proof.
  assert (He : 0 < 1 / 1000000000) by lra.
  split.
  - rewrite isometry_in_model_spec_diagonal by exact He.
    apply andb_true_intro. split.
    + apply negb_true_iff, Reqb_false. lra.
    + apply Rltb_true. apply Rabs_def1; lra.
  - unfold __mul__; cbn [operand_model_name model_name domain short_name].
    cbn [String.eqb Ascii.eqb Bool.eqb negb _matrix].
    assert (HP : Mat.mul
                   (mkMatrix 3 [1 + 4 / 10000000000; 0; 0; 0; 1; 0; 0; 0; 1])
                   (mkMatrix 3 [1 + 4 / 10000000000; 0; 0; 0; 1; 0; 0; 0; 1]) =
                 Ok (mkMatrix 3
                       [(1 + 4 / 10000000000) * (1 + 4 / 10000000000);
                        0; 0; 0; 1; 0; 0; 0; 1])).
    { unfold Mat.mul, Mat.same_parent, Mat.dot, Mat.get.
      cbn [dim coeffs Nat.eqb seq flat_map map app fold_right nth
           Nat.mul Nat.add].
      do 2 f_equal. repeat (f_equal; try ring). }
    rewrite HP. cbn [bind]. unfold __init__, isometry_test.
    rewrite isometry_in_model_spec_diagonal by exact He.
    assert (Hb : Rltb (Rabs ((1 + 4 / 10000000000) * (1 + 4 / 10000000000) *
                             ((1 + 4 / 10000000000) * (1 + 4 / 10000000000))
                             - 1)) (1 / 1000000000) = false).
    { apply Rltb_false. rewrite Rabs_pos_eq by nra. nra. }
    rewrite Hb, andb_false_r. reflexivity.
Qed.

(** C6, amended, at the doctest: the product of the UHP isometries of
    [[3,1],[1,2]] and [[5,2],[1,2]] is the isometry of [[16,8],[7,6]],
    and the product of a UHP isometry with an HM isometry raises. *)
Lemma mul_isometry_valid_witness :
  __mul__ (isometry_in_model_spec (1 / 1000000000)) R (fun _ _ c => c)
          (fun m c => Ok (mkPoint m c)) (fun m s e => Ok (mkGeodesic m s e))
          (mkIsometry UHP (mkMatrix 2 [3; 1; 1; 2]))
          (AnIsometry (mkIsometry UHP (mkMatrix 2 [5; 2; 1; 2]))) =
  Ok (IsometryProduct (mkIsometry UHP (mkMatrix 2 [16; 8; 7; 6]))) /\
  __mul__ (isometry_in_model_spec (1 / 1000000000)) R (fun _ _ c => c)
          (fun m c => Ok (mkPoint m c)) (fun m s e => Ok (mkGeodesic m s e))
          (mkIsometry UHP (mkMatrix 2 [3; 1; 1; 2]))
          (AnIsometry (mkIsometry HM (mkMatrix 3 [1; 0; 0; 0; 1; 0; 0; 0; 1]))) =
  Raise TypeError_not_same_model.
Proof.
  assert (Hv : forall a b c d : R, a * d - b * c <> 0 ->
               isometry_in_model_spec (1 / 1000000000) UHP
                 (mkMatrix 2 [a; b; c; d]) = true).
  { intros a b c d H. unfold isometry_in_model_spec.
    cbn [dim coeffs List.length required_dimension Nat.eqb Nat.mul Nat.add
         andb].
    rewrite andb_true_r. apply negb_true_iff, Reqb_false.
    unfold determinant, Mat.get. cbn [dim coeffs nth Nat.mul Nat.add].
    exact H. }
  destruct (mul_isometry_valid (1 / 1000000000) R (fun _ _ c => c)
              (fun m c => Ok (mkPoint m c))
              (fun m s e => Ok (mkGeodesic m s e))
              (mkIsometry UHP (mkMatrix 2 [3; 1; 1; 2]))) as [Hdiff Hsame].
  split.
  - destruct (Hsame (mkIsometry UHP (mkMatrix 2 [5; 2; 1; 2])))
      as (P & HP & Hmul & Hvalid).
    + reflexivity.
    + apply Hv. lra.
    + apply Hv. lra.
    + rewrite Hmul, Hvalid by (left; reflexivity).
      unfold matrix in HP; cbn [_matrix] in HP.
      rewrite mul_doctest in HP. injection HP as <-. reflexivity.
  - apply Hdiff. cbn. discriminate.
Defined.

(** C10, at a UHP isometry and a foreign object that calls its model
    'UHP'. *)
Lemma mul_other_returns_None_witness :
  __mul__ (fun _ _ => true) R (fun _ _ c => c)
          (fun m c => Ok (mkPoint m c)) (fun m s e => Ok (mkGeodesic m s e))
          (mkIsometry UHP (mkMatrix 2 [3; 1; 1; 2]))
          (AnotherObject "UHP") = Ok PyNone.
Proof.
  apply mul_other_returns_None. reflexivity.
Defined.

(** ** Abelian Lie algebras *)

Section LieAlgebraProperties.

Variable Element : Type.
Variable element_eqb : Element -> Element -> bool.
Hypothesis element_eqb_eq : forall x y, element_eqb x y = true <-> x = y.

(** C9: [is_abelian] raises "infinite number of generators" when the
    family of generators is not a finite enumerated set; otherwise it
    returns a boolean, which is [True] exactly when the bracket of every
    ordered pair of generators is zero. *)
Theorem is_abelian_spec (L : LieAlgebra Element) :
  (lie_algebra_generators L = OtherFamily ->
   is_abelian element_eqb L = Raise NotImplementedError_infinite_generators) /\
  (forall G : list Element,
      lie_algebra_generators L = FiniteEnumeratedSet G ->
      exists b : bool,
        is_abelian element_eqb L = Ok b /\
        (b = true <->
         forall x y, In x G -> In y G -> _bracket_ L x y = zero L)).
Proof.
  unfold is_abelian. split.
  - intros ->. reflexivity.
  - intros G ->. eexists. split; [reflexivity |].
    rewrite forallb_forall. split.
    + intros H x y Hx Hy.
      apply element_eqb_eq.
      apply (H (x, y)). apply in_prod; assumption.
    + intros H [x y] Hxy. apply in_prod_iff in Hxy as [Hx Hy].
      apply element_eqb_eq. cbn [fst snd]. now apply H.
Qed.

End LieAlgebraProperties.

Lemma vec3_eqb_eq (u v : Vec3) : vec3_eqb u v = true <-> u = v.
Proof.
  destruct u as [[a b] c], v as [[a' b'] c']. unfold vec3_eqb.
  rewrite !andb_true_iff, !Z.eqb_eq. split.
  - intros [[-> ->] ->]. reflexivity.
  - intros H. injection H as -> -> ->. auto.
Qed.

(** The cross product algebra is not abelian. *)
Example cross_product_not_abelian :
  is_abelian vec3_eqb cross_product_algebra = Ok false.
Proof. reflexivity. Qed.

(** C9, at the cross product algebra: [is_abelian] returns a boolean
    that is [True] exactly when all brackets of unit vectors vanish. *)
Lemma is_abelian_spec_witness :
  exists b : bool,
    is_abelian vec3_eqb cross_product_algebra = Ok b /\
    (b = true <->
     forall x y,
       In x [(1, 0, 0); (0, 1, 0); (0, 0, 1)]%Z ->
       In y [(1, 0, 0); (0, 1, 0); (0, 0, 1)]%Z ->
       cross x y = (0, 0, 0)%Z).
Proof.
  apply (proj2 (is_abelian_spec Vec3 vec3_eqb vec3_eqb_eq
                  cross_product_algebra)).
  reflexivity.
Defined.

(** C7: with the determinant as [abs] of a matrix, two 2x2 isometries
    of one model are [==] as soon as the determinant of the difference
    of their matrices is below [EPSILON], however far apart the matrices
    are. *)
Theorem eq_isometry_abs_determinant
    (EPSILON : R) (is_isometry_group_projective : HyperbolicModel -> bool)
    (m : HyperbolicModel) (A B : Matrix2) :
  (m00 A - m00 B) * (m11 A - m11 B) - (m01 A - m01 B) * (m10 A - m10 B)
    < EPSILON ->
  __eq__ EPSILON is_isometry_group_projective determinant
    (mkIsometry m (Mat.of_Matrix2 A)) (mkIsometry m (Mat.of_Matrix2 B)) =
  Ok true.
Proof.
  intros H. unfold __eq__, matrix, Mat.sub, Mat.add, Mat.same_parent,
    Mat.of_Matrix2.
  cbn [_matrix domain dim coeffs Nat.eqb bind Mat.map2].
  replace (determinant (mkMatrix 2 [m00 A - m00 B; m01 A - m01 B;
                                    m10 A - m10 B; m11 A - m11 B]))
    with ((m00 A - m00 B) * (m11 A - m11 B)
          - (m01 A - m01 B) * (m10 A - m10 B))
    by (unfold determinant, Mat.get; cbn [dim coeffs nth Nat.mul Nat.add];
        reflexivity).
  apply Rltb_true in H. rewrite H.
  replace (model_is m m) with true by (destruct m; reflexivity).
  now destruct (is_isometry_group_projective m).
Qed.

(** C7, at the UHP isometries of [identity_matrix(2)] and
    [[2,0],[0,1]] with tolerance [10^-9]: the difference [[-1,0],[0,0]]
    has determinant 0, and [==] returns [True]. *)
Lemma eq_isometry_abs_determinant_witness :
  __eq__ (1 / 1000000000) projective_UHP_PD determinant
    (mkIsometry UHP (mkMatrix 2 [1; 0; 0; 1]))
    (mkIsometry UHP (mkMatrix 2 [2; 0; 0; 1])) = Ok true.
Proof.
  apply (eq_isometry_abs_determinant (1 / 1000000000) projective_UHP_PD UHP
           (mat2 1 0 0 1) (mat2 2 0 0 1)).
  cbn [m00 m01 m10 m11]. lra.
Defined.

(** Isometries of two different models are never equal. *)
Example eq_isometry_models_differ (EPSILON : R) (A B : Matrix) :
  __eq__ EPSILON projective_UHP_PD abs_sum
    (mkIsometry UHP A) (mkIsometry PD B) <> Ok true.
Proof.
  unfold __eq__.
  destruct (sub_add_same_parent (matrix (mkIsometry UHP A))
                                (matrix (mkIsometry PD B)))
    as [(D & S & -> & ->) | [-> _]]; cbn; discriminate.
Qed.

(** * Further properties *)

(** ** Composition of UHP isometries and orientation *)

Lemma mul_of_Matrix2 (A B : Matrix2) :
  Mat.mul (Mat.of_Matrix2 A) (Mat.of_Matrix2 B) =
  Ok (Mat.of_Matrix2 (mul2 A B)).
Proof.
  destruct A as [a b c d], B as [a' b' c' d'].
  unfold Mat.mul, Mat.same_parent, Mat.dot, Mat.get, Mat.of_Matrix2, mul2.
  cbn [dim coeffs Nat.eqb seq flat_map map app fold_right nth Nat.mul Nat.add
       m00 m01 m10 m11].
  do 2 f_equal. repeat (f_equal; try ring).
Qed.

Lemma det_mul2 (A B : Matrix2) :
  M2.det (mul2 A B) = M2.det A * M2.det B.
Proof.
  destruct A as [a b c d], B as [a' b' c' d'].
  unfold M2.det, mul2; cbn [m00 m01 m10 m11]. ring.
Qed.

(** What a successful product of two isometries says about its operands. *)
Lemma mul_isometry_inv
    (isometry_in_model : HyperbolicModel -> Matrix -> bool)
    (Coordinates : Type)
    (isometry_act_on_point :
       HyperbolicModel -> Matrix -> Coordinates -> Coordinates)
    (get_point :
       HyperbolicModel -> Coordinates -> result (HyperbolicPoint Coordinates))
    (get_geodesic :
       HyperbolicModel -> HyperbolicPoint Coordinates ->
       HyperbolicPoint Coordinates -> result (HyperbolicGeodesic Coordinates))
    (A B : HyperbolicIsometry) (r : Product Coordinates) :
  __mul__ isometry_in_model Coordinates isometry_act_on_point
          get_point get_geodesic A (AnIsometry B) = Ok r ->
  domain A = domain B /\
  exists P,
    Mat.mul (_matrix A) (_matrix B) = Ok P /\
    isometry_in_model (domain A) P = true /\
    r = IsometryProduct (mkIsometry (domain A) P).
Proof.
  unfold __mul__; cbn [operand_model_name].
  destruct (String.eqb (model_name A) (model_name B)) eqn:En; cbn [negb];
    [| discriminate].
  apply String.eqb_eq, short_name_inj in En.
  destruct (Mat.mul (_matrix A) (_matrix B)) as [P | e]; cbn [bind];
    [| discriminate].
  unfold __init__, isometry_test.
  destruct (isometry_in_model (domain A) P) eqn:Hv; cbn [bind];
    [| discriminate].
  intros H. injection H as <-. split; [exact En |].
  exists P. auto.
Qed.

(** When two isometries with 2x2 matrices compose, the matrix of the
    product is the 2x2 product, and for nonzero determinants the
    product preserves orientation exactly when both factors do or
    neither does. *)
Theorem mul_orientation
    (isometry_in_model : HyperbolicModel -> Matrix -> bool)
    (Coordinates : Type)
    (isometry_act_on_point :
       HyperbolicModel -> Matrix -> Coordinates -> Coordinates)
    (get_point :
       HyperbolicModel -> Coordinates -> result (HyperbolicPoint Coordinates))
    (get_geodesic :
       HyperbolicModel -> HyperbolicPoint Coordinates ->
       HyperbolicPoint Coordinates -> result (HyperbolicGeodesic Coordinates))
    (m m' : HyperbolicModel) (A B : Matrix2) (C : HyperbolicIsometry) :
  __mul__ isometry_in_model Coordinates isometry_act_on_point
          get_point get_geodesic
          (mkIsometry m (Mat.of_Matrix2 A))
          (AnIsometry (mkIsometry m' (Mat.of_Matrix2 B))) =
  Ok (IsometryProduct C) ->
  M2.det A <> 0 -> M2.det B <> 0 ->
  C = mkIsometry m (Mat.of_Matrix2 (mul2 A B)) /\
  M2.det (mul2 A B) <> 0 /\
  orientation_preserving (mul2 A B) =
  Bool.eqb (orientation_preserving A) (orientation_preserving B).
Proof.
  intros H HA HB.
  apply mul_isometry_inv in H as (_ & P & HP & _ & HC).
  cbn [_matrix domain] in *. rewrite mul_of_Matrix2 in HP.
  injection HP as <-. injection HC as ->.
  split; [reflexivity |]. rewrite det_mul2. split.
  - apply Rmult_integral_contrapositive; auto.
  - unfold orientation_preserving. rewrite det_mul2.
    repeat cmp_cases; cbn [Bool.eqb]; try reflexivity; exfalso; nra.
Qed.

(** At two reflections, whose product preserves orientation. *)
Lemma mul_orientation_witness :
  orientation_preserving (mul2 (mat2 (-1) 0 0 1) (mat2 0 1 1 0)) =
  Bool.eqb (orientation_preserving (mat2 (-1) 0 0 1))
           (orientation_preserving (mat2 0 1 1 0)).
Proof.
  apply (mul_orientation (fun _ _ => true) R (fun _ _ c => c)
           (fun m c => Ok (mkPoint m c)) (fun m s e => Ok (mkGeodesic m s e))
           UHP UHP (mat2 (-1) 0 0 1) (mat2 0 1 1 0)
           (mkIsometry UHP
              (Mat.of_Matrix2 (mul2 (mat2 (-1) 0 0 1) (mat2 0 1 1 0))))).
  - unfold __mul__; cbn [operand_model_name model_name domain short_name
                         String.eqb Ascii.eqb Bool.eqb negb _matrix].
    now rewrite mul_of_Matrix2.
  - unfold M2.det; cbn [m00 m01 m10 m11]; lra.
  - unfold M2.det; cbn [m00 m01 m10 m11]; lra.
Defined.

(** ** Sums and tables *)

Lemma sum_over_ext_in (f g : nat -> R) (L : list nat) :
  (forall k, In k L -> f k = g k) -> sum_over f L = sum_over g L.
Proof.
  intros H. unfold sum_over. f_equal. now apply map_ext_in.
Qed.

Lemma sum_over_zero (L : list nat) : sum_over (fun _ => 0) L = 0.
Proof. induction L as [| k L IH]; cbn; [reflexivity |]. fold (sum_over (fun _ => 0) L). rewrite IH. ring. Qed.

Lemma sum_over_plus (f g : nat -> R) (L : list nat) :
  sum_over (fun k => f k + g k) L = sum_over f L + sum_over g L.
Proof.
  unfold sum_over. induction L as [| k L IH]; cbn; [ring |].
  rewrite IH. ring.
Qed.

Lemma sum_over_mult_l (c : R) (f : nat -> R) (L : list nat) :
  c * sum_over f L = sum_over (fun k => c * f k) L.
Proof.
  unfold sum_over. induction L as [| k L IH]; cbn; [ring |].
  rewrite <- IH. ring.
Qed.

Lemma sum_over_mult_r (c : R) (f : nat -> R) (L : list nat) :
  sum_over f L * c = sum_over (fun k => f k * c) L.
Proof.
  unfold sum_over. induction L as [| k L IH]; cbn; [ring |].
  rewrite <- IH. ring.
Qed.

Lemma sum_over_swap (g : nat -> nat -> R) (L1 L2 : list nat) :
  sum_over (fun k => sum_over (fun l => g k l) L2) L1 =
  sum_over (fun l => sum_over (fun k => g k l) L1) L2.
Proof.
  induction L1 as [| k L1 IH].
  - cbn. symmetry. apply sum_over_zero.
  - change (sum_over (fun k0 => sum_over (fun l => g k0 l) L2) (k :: L1))
      with (sum_over (fun l => g k l) L2
            + sum_over (fun k0 => sum_over (fun l => g k0 l) L2) L1).
    rewrite IH, <- sum_over_plus. reflexivity.
Qed.

Lemma flat_map_ext_on {A B : Type} (f g : A -> list B) (l : list A) :
  (forall x, In x l -> f x = g x) -> flat_map f l = flat_map g l.
Proof.
  induction l as [| x l IH]; intros H; cbn; [reflexivity |].
  rewrite H by (left; reflexivity). f_equal. apply IH.
  intros y Hy. apply H. now right.
Qed.

Lemma table_ext (n : nat) (f g : nat -> nat -> R) :
  (forall i j, (i < n)%nat -> (j < n)%nat -> f i j = g i j) ->
  table n f = table n g.
Proof.
  intros H. unfold table. apply flat_map_ext_on. intros i Hi.
  apply map_ext_in. intros j Hj.
  apply in_seq in Hi, Hj. apply H; lia.
Qed.

Lemma nth_rows (n : nat) (f : nat -> nat -> R) (a m i j : nat) :
  (i < m)%nat -> (j < n)%nat ->
  nth (i * n + j)
      (flat_map (fun i => map (fun j => f i j) (seq 0 n)) (seq a m)) 0 =
  f (a + i)%nat j.
Proof.
  revert a i. induction m as [| m IH]; intros a i Hi Hj; [lia |].
  cbn [seq flat_map].
  destruct i as [| i].
  - cbn [Nat.mul Nat.add]. rewrite app_nth1 by (rewrite length_map, length_seq; exact Hj).
    rewrite (nth_indep _ 0 (f a 0%nat))
      by (rewrite length_map, length_seq; exact Hj).
    rewrite (map_nth (fun j => f a j)), seq_nth by exact Hj.
    now rewrite Nat.add_0_r.
  - rewrite app_nth2 by (rewrite length_map, length_seq; lia).
    rewrite length_map, length_seq.
    replace (S i * n + j - n)%nat with (i * n + j)%nat by lia.
    rewrite IH by lia. f_equal. lia.
Qed.

Lemma nth_table (n : nat) (f : nat -> nat -> R) (i j : nat) :
  (i < n)%nat -> (j < n)%nat -> nth (i * n + j) (table n f) 0 = f i j.
Proof. intros Hi Hj. unfold table. now rewrite nth_rows. Qed.

Lemma length_table (n : nat) (f : nat -> nat -> R) :
  List.length (table n f) = (n * n)%nat.
Proof.
  unfold table.
  assert (H : forall L : list nat,
             List.length
               (flat_map (fun i => map (fun j => f i j) (seq 0 n)) L) =
             (List.length L * n)%nat).
  { induction L as [| i L IH]; cbn [flat_map List.length]; [lia |].
    rewrite length_app, length_map, length_seq, IH. lia. }
  now rewrite H, length_seq.
Qed.

(** ** The matrix product *)

Lemma mul_table (A B : Matrix) :
  dim A = dim B ->
  Mat.mul A B = Ok (mkMatrix (dim A) (table (dim A) (Mat.dot A B))).
Proof.
  intros H. unfold Mat.mul, Mat.same_parent. rewrite H, Nat.eqb_refl.
  rewrite <- H. reflexivity.
Qed.

Lemma mul_inv (A B P : Matrix) :
  Mat.mul A B = Ok P ->
  dim A = dim B /\ P = mkMatrix (dim A) (table (dim A) (Mat.dot A B)).
Proof.
  unfold Mat.mul, Mat.same_parent.
  destruct (Nat.eqb (dim A) (dim B)) eqn:E; [| discriminate].
  apply Nat.eqb_eq in E. intros H. injection H as <-. now split.
Qed.

Lemma get_table (n : nat) (f : nat -> nat -> R) (i j : nat) :
  (i < n)%nat -> (j < n)%nat -> Mat.get (mkMatrix n (table n f)) i j = f i j.
Proof. intros Hi Hj. unfold Mat.get; cbn [dim coeffs]. now apply nth_table. Qed.

Lemma dot_sum (A B : Matrix) (i j : nat) :
  Mat.dot A B i j =
  sum_over (fun k => Mat.get A i k * Mat.get B k j) (seq 0 (dim A)).
Proof. reflexivity. Qed.

(** The matrix product is associative. *)
Lemma mul_assoc (A B C P Q : Matrix) :
  Mat.mul A B = Ok P -> Mat.mul B C = Ok Q -> Mat.mul P C = Mat.mul A Q.
Proof.
  intros HP HQ.
  apply mul_inv in HP as [HAB ->]. apply mul_inv in HQ as [HBC ->].
  rewrite !mul_table by (cbn [dim]; congruence).
  cbn [dim]. f_equal. f_equal.
  apply table_ext. intros i j Hi Hj.
  rewrite !dot_sum. cbn [dim].
  transitivity
    (sum_over (fun k =>
       sum_over (fun l => Mat.get A i l * Mat.get B l k * Mat.get C k j)
                (seq 0 (dim A))) (seq 0 (dim A))).
  - apply sum_over_ext_in. intros k Hk. apply in_seq in Hk.
    rewrite get_table by lia. rewrite dot_sum. apply sum_over_mult_r.
  - rewrite sum_over_swap. apply sum_over_ext_in. intros l Hl.
    apply in_seq in Hl. rewrite <- HAB, get_table by lia.
    rewrite dot_sum, sum_over_mult_l, <- HAB.
    apply sum_over_ext_in. intros k _. ring.
Qed.

Lemma sum_over_delta_l (g : nat -> R) (i a m : nat) :
  (a <= i < a + m)%nat ->
  sum_over (fun k => (if Nat.eqb i k then 1 else 0) * g k) (seq a m) = g i.
Proof.
  revert a. induction m as [| m IH]; intros a H; [lia |].
  cbn [seq]. unfold sum_over; cbn [map fold_right].
  fold (sum_over (fun k => (if Nat.eqb i k then 1 else 0) * g k) (seq (S a) m)).
  destruct (Nat.eqb i a) eqn:E.
  - apply Nat.eqb_eq in E. subst a.
    rewrite (sum_over_ext_in _ (fun _ => 0)).
    + rewrite sum_over_zero. ring.
    + intros k Hk. apply in_seq in Hk.
      assert (E : Nat.eqb i k = false) by (apply Nat.eqb_neq; lia).
      rewrite E. ring.
  - apply Nat.eqb_neq in E. rewrite IH by lia. ring.
Qed.

Lemma sum_over_delta_r (g : nat -> R) (j a m : nat) :
  (a <= j < a + m)%nat ->
  sum_over (fun k => g k * (if Nat.eqb k j then 1 else 0)) (seq a m) = g j.
Proof.
  intros H. rewrite <- (sum_over_delta_l g j a m H).
  apply sum_over_ext_in. intros k _. rewrite (Nat.eqb_sym k j). ring.
Qed.

Lemma identity_matrix_table (n : nat) :
  identity_matrix n =
  mkMatrix n (table n (fun i j => if Nat.eqb i j then 1 else 0)).
Proof. reflexivity. Qed.

Lemma dot_identity_l (n : nat) (B : Matrix) (i j : nat) :
  (i < n)%nat -> Mat.dot (identity_matrix n) B i j = Mat.get B i j.
Proof.
  intros Hi. rewrite dot_sum. cbn [dim identity_matrix].
  rewrite <- (sum_over_delta_l (fun k => Mat.get B k j) i 0 n) by lia.
  apply sum_over_ext_in. intros k Hk. apply in_seq in Hk.
  rewrite identity_matrix_table, get_table by lia. reflexivity.
Qed.

Lemma dot_identity_r (B : Matrix) (i j : nat) :
  (j < dim B)%nat -> Mat.dot B (identity_matrix (dim B)) i j = Mat.get B i j.
Proof.
  intros Hj. rewrite dot_sum.
  rewrite <- (sum_over_delta_r (fun k => Mat.get B i k) j 0 (dim B)) by lia.
  apply sum_over_ext_in. intros k Hk. apply in_seq in Hk.
  rewrite identity_matrix_table, get_table by lia. reflexivity.
Qed.

(** A well-formed matrix is the table of its entries. *)
Lemma table_get (B : Matrix) :
  well_formed B -> table (dim B) (Mat.get B) = coeffs B.
Proof.
  unfold well_formed. intros Hw.
  apply (nth_ext _ _ 0 0).
  - now rewrite length_table.
  - rewrite length_table. intros k Hk.
    assert (Hn : dim B <> 0%nat) by (intros E; rewrite E in Hk; lia).
    pose proof (Nat.div_mod k (dim B) Hn) as Hdm.
    pose proof (Nat.mod_upper_bound k (dim B) Hn) as Hm.
    assert (Hq : (k / dim B < dim B)%nat)
      by (apply Nat.Div0.div_lt_upper_bound; exact Hk).
    replace k with (k / dim B * dim B + k mod dim B)%nat at 1 by lia.
    rewrite nth_table by assumption.
    unfold Mat.get. f_equal. lia.
Qed.

Lemma mul_identity_l (B : Matrix) :
  well_formed B -> Mat.mul (identity_matrix (dim B)) B = Ok B.
Proof.
  intros Hw. rewrite mul_table by reflexivity. cbn [dim identity_matrix].
  destruct B as [n l]. cbn [dim] in *. do 2 f_equal.
  transitivity (table n (Mat.get (mkMatrix n l)));
    [| exact (table_get (mkMatrix n l) Hw)].
  apply table_ext. intros i j Hi Hj. now apply dot_identity_l.
Qed.

Lemma mul_identity_r (B : Matrix) :
  well_formed B -> Mat.mul B (identity_matrix (dim B)) = Ok B.
Proof.
  intros Hw. rewrite mul_table by reflexivity.
  destruct B as [n l]. cbn [dim] in *. do 2 f_equal.
  transitivity (table n (Mat.get (mkMatrix n l)));
    [| exact (table_get (mkMatrix n l) Hw)].
  apply table_ext. intros i j Hi Hj.
  now apply (dot_identity_r (mkMatrix n l)).
Qed.

Lemma list_Reqb_true (l1 l2 : list R) : list_Reqb l1 l2 = true -> l1 = l2.
Proof.
  revert l2. induction l1 as [| x l1 IH]; intros [| y l2]; cbn;
    try discriminate; [reflexivity |].
  intros H. apply andb_true_iff in H as [Hx Hl].
  apply Reqb_true in Hx. subst y. f_equal. now apply IH.
Qed.

Lemma is_one_identity (A : Matrix) :
  is_one A = true -> A = identity_matrix (dim A).
Proof.
  unfold is_one. intros H. apply list_Reqb_true in H.
  destruct A as [n l]. cbn [dim coeffs identity_matrix] in *. now subst l.
Qed.

(** ** Composition of isometries: associativity, identity, powers *)

Section CompositionProperties.

Variable isometry_in_model : HyperbolicModel -> Matrix -> bool.
Variable matrix_inverse : Matrix -> result Matrix.
Variable Coordinates : Type.
Variable isometry_act_on_point :
  HyperbolicModel -> Matrix -> Coordinates -> Coordinates.
Variable get_point :
  HyperbolicModel -> Coordinates -> result (HyperbolicPoint Coordinates).
Variable get_geodesic :
  HyperbolicModel -> HyperbolicPoint Coordinates ->
  HyperbolicPoint Coordinates -> result (HyperbolicGeodesic Coordinates).

Local Abbreviation times :=
  (__mul__ isometry_in_model Coordinates isometry_act_on_point
           get_point get_geodesic).

(** The product of two isometries, unfolded. *)
Lemma mul_isometry_unfold (A B : HyperbolicIsometry) :
  domain A = domain B ->
  times A (AnIsometry B) =
  (P <- Mat.mul (_matrix A) (_matrix B) ;;
   C <- __init__ isometry_in_model (domain A) P ;;
   Ok (IsometryProduct C)).
Proof.
  intros H. unfold __mul__; cbn [operand_model_name].
  unfold model_name. now rewrite H, String.eqb_refl.
Qed.

(** Composition is associative: when [A * B] and [B * C] are
    isometries, [(A * B) * C] and [A * (B * C)] are the same result,
    value or exception. *)
Theorem mul_isometry_assoc (A B C AB BC : HyperbolicIsometry) :
  times A (AnIsometry B) = Ok (IsometryProduct AB) ->
  times B (AnIsometry C) = Ok (IsometryProduct BC) ->
  times AB (AnIsometry C) = times A (AnIsometry BC).
Proof.
  intros H1 H2.
  apply mul_isometry_inv in H1 as (HmAB & P & HP & _ & E1).
  apply mul_isometry_inv in H2 as (HmBC & Q & HQ & _ & E2).
  injection E1 as ->. injection E2 as ->.
  rewrite !mul_isometry_unfold by (cbn [domain]; congruence).
  cbn [_matrix domain].
  now rewrite (mul_assoc _ _ _ _ _ HP HQ).
Qed.

(** An isometry whose matrix [is_one] is neutral on both sides for
    every valid isometry of its model with a well-formed matrix of the
    same size. *)
Theorem mul_isometry_identity (E B : HyperbolicIsometry) :
  is_identity E = true ->
  domain E = domain B ->
  dim (_matrix E) = dim (_matrix B) ->
  well_formed (_matrix B) ->
  isometry_in_model (domain B) (_matrix B) = true ->
  times E (AnIsometry B) = Ok (IsometryProduct B) /\
  times B (AnIsometry E) = Ok (IsometryProduct B).
Proof.
  intros HE Hm Hdim Hw Hv. unfold is_identity in HE.
  apply is_one_identity in HE.
  rewrite !mul_isometry_unfold by congruence.
  rewrite HE, Hdim, mul_identity_l, mul_identity_r by exact Hw.
  cbn [bind]. unfold __init__, isometry_test.
  rewrite Hm, Hv. cbn [bind]. destruct B. split; reflexivity.
Qed.

(** Every non-negative power of a matrix exists and is a table. *)
Lemma pow_nat_table (A : Matrix) (n : nat) :
  exists f, pow_nat A n = Ok (mkMatrix (dim A) (table (dim A) f)).
Proof.
  induction n as [| n [f IH]].
  - eexists. cbn [pow_nat]. now rewrite identity_matrix_table.
  - eexists. cbn [pow_nat]. rewrite IH. cbn [bind].
    now rewrite mul_table by reflexivity.
Qed.

Lemma well_formed_table (n : nat) (f : nat -> nat -> R) :
  well_formed (mkMatrix n (table n f)).
Proof. unfold well_formed. cbn [dim coeffs]. apply length_table. Qed.

Lemma pow_nat_add (A : Matrix) (m n : nat) :
  pow_nat A (m + n) =
  (X <- pow_nat A m ;; Y <- pow_nat A n ;; Mat.mul X Y).
Proof.
  induction m as [| m IH].
  - cbn [Nat.add pow_nat bind].
    destruct (pow_nat_table A n) as [f ->]. cbn [bind].
    symmetry. apply (mul_identity_l (mkMatrix (dim A) (table (dim A) f))).
    apply well_formed_table.
  - cbn [Nat.add pow_nat]. rewrite IH.
    destruct (pow_nat_table A m) as [f ->].
    destruct (pow_nat_table A n) as [g ->]. cbn [bind].
    set (X := mkMatrix (dim A) (table (dim A) f)).
    set (Y := mkMatrix (dim A) (table (dim A) g)).
    destruct (Mat.mul X Y) as [XY | e] eqn:HXY;
      [| rewrite mul_table in HXY by reflexivity; discriminate].
    destruct (Mat.mul A X) as [AX | e] eqn:HAX;
      [| rewrite mul_table in HAX by reflexivity; discriminate].
    cbn [bind]. symmetry. now apply (mul_assoc A X Y).
Qed.

Local Abbreviation power := (__pow__ isometry_in_model matrix_inverse).

(** Powers add up: for exponents [m, n >= 0] whose powers [A ** m] and
    [A ** n] are isometries, [(A ** m) * (A ** n)] is the same result
    as [A ** (m + n)], value or exception. *)
Theorem pow_add (A Am An : HyperbolicIsometry) (m n : Z) :
  (0 <= m)%Z -> (0 <= n)%Z ->
  power A m = Ok Am ->
  power A n = Ok An ->
  times Am (AnIsometry An) =
  (C <- power A (m + n) ;; Ok (IsometryProduct C)).
Proof.
  intros Hm Hn HAm HAn.
  unfold __pow__, matrix_power in *.
  assert (Em : (m <? 0)%Z = false) by (apply Z.ltb_ge; lia).
  assert (En : (n <? 0)%Z = false) by (apply Z.ltb_ge; lia).
  assert (Emn : (m + n <? 0)%Z = false) by (apply Z.ltb_ge; lia).
  rewrite Em in HAm. rewrite En in HAn. rewrite Emn.
  rewrite Z2Nat.inj_add, pow_nat_add by assumption.
  destruct (pow_nat (_matrix A) (Z.to_nat m)) as [X | e]; cbn [bind] in *;
    [| discriminate].
  destruct (pow_nat (_matrix A) (Z.to_nat n)) as [Y | e]; cbn [bind] in *;
    [| discriminate].
  unfold __init__, isometry_test in HAm, HAn.
  destruct (isometry_in_model (domain A) X); cbn [bind] in HAm;
    [| discriminate].
  destruct (isometry_in_model (domain A) Y); cbn [bind] in HAn;
    [| discriminate].
  injection HAm as <-. injection HAn as <-.
  rewrite mul_isometry_unfold by reflexivity. cbn [_matrix domain].
  destruct (Mat.mul X Y); reflexivity.
Qed.

End CompositionProperties.

(** The product of two UHP isometries with 2x2 matrices, under a
    validity test that accepts everything. *)
Lemma mul_UHP_2x2 (A B : Matrix2) :
  __mul__ (fun _ _ => true) R (fun _ _ c => c)
          (fun m c => Ok (mkPoint m c)) (fun m s e => Ok (mkGeodesic m s e))
          (mkIsometry UHP (Mat.of_Matrix2 A))
          (AnIsometry (mkIsometry UHP (Mat.of_Matrix2 B))) =
  Ok (IsometryProduct (mkIsometry UHP (Mat.of_Matrix2 (mul2 A B)))).
Proof.
  rewrite mul_isometry_unfold by reflexivity.
  cbn [_matrix domain]. now rewrite mul_of_Matrix2.
Qed.

Lemma mul_isometry_assoc_witness :
  __mul__ (fun _ _ => true) R (fun _ _ c => c)
          (fun m c => Ok (mkPoint m c)) (fun m s e => Ok (mkGeodesic m s e))
          (mkIsometry UHP
             (Mat.of_Matrix2 (mul2 (mat2 3 1 1 2) (mat2 5 2 1 2))))
          (AnIsometry (mkIsometry UHP (Mat.of_Matrix2 (mat2 0 1 (-1) 0)))) =
  __mul__ (fun _ _ => true) R (fun _ _ c => c)
          (fun m c => Ok (mkPoint m c)) (fun m s e => Ok (mkGeodesic m s e))
          (mkIsometry UHP (Mat.of_Matrix2 (mat2 3 1 1 2)))
          (AnIsometry
             (mkIsometry UHP
                (Mat.of_Matrix2 (mul2 (mat2 5 2 1 2) (mat2 0 1 (-1) 0))))).
Proof.
  apply (mul_isometry_assoc (fun _ _ => true) R (fun _ _ c => c)
           (fun m c => Ok (mkPoint m c)) (fun m s e => Ok (mkGeodesic m s e))
           (mkIsometry UHP (Mat.of_Matrix2 (mat2 3 1 1 2)))
           (mkIsometry UHP (Mat.of_Matrix2 (mat2 5 2 1 2)))).
  - apply mul_UHP_2x2.
  - apply mul_UHP_2x2.
Defined.

Lemma is_identity_2x2 :
  is_identity (mkIsometry UHP (mkMatrix 2 [1; 0; 0; 1])) = true.
Proof.
  unfold is_identity, is_one, identity_matrix.
  cbn [_matrix coeffs dim seq flat_map map app Nat.eqb list_Reqb].
  rewrite (proj2 (Reqb_true 1 1) eq_refl), (proj2 (Reqb_true 0 0) eq_refl).
  reflexivity.
Qed.

Lemma mul_isometry_identity_witness :
  __mul__ (fun _ _ => true) R (fun _ _ c => c)
          (fun m c => Ok (mkPoint m c)) (fun m s e => Ok (mkGeodesic m s e))
          (mkIsometry UHP (mkMatrix 2 [1; 0; 0; 1]))
          (AnIsometry (mkIsometry UHP (mkMatrix 2 [3; 1; 1; 2]))) =
  Ok (IsometryProduct (mkIsometry UHP (mkMatrix 2 [3; 1; 1; 2]))) /\
  __mul__ (fun _ _ => true) R (fun _ _ c => c)
          (fun m c => Ok (mkPoint m c)) (fun m s e => Ok (mkGeodesic m s e))
          (mkIsometry UHP (mkMatrix 2 [3; 1; 1; 2]))
          (AnIsometry (mkIsometry UHP (mkMatrix 2 [1; 0; 0; 1]))) =
  Ok (IsometryProduct (mkIsometry UHP (mkMatrix 2 [3; 1; 1; 2]))).
Proof.
  apply mul_isometry_identity.
  - exact is_identity_2x2.
  - reflexivity.
  - reflexivity.
  - reflexivity.
  - reflexivity.
Defined.

(** At the doctest matrix [[3,1],[2,1]]: [A ** 1 * A ** 2] is [A ** 3]. *)
Lemma pow_add_witness :
  exists Am An : HyperbolicIsometry,
    __pow__ (fun _ _ => true) (fun _ => Raise ValueError_invalid_isometry)
      (mkIsometry UHP (mkMatrix 2 [3; 1; 2; 1])) 1 = Ok Am /\
    __pow__ (fun _ _ => true) (fun _ => Raise ValueError_invalid_isometry)
      (mkIsometry UHP (mkMatrix 2 [3; 1; 2; 1])) 2 = Ok An /\
    __mul__ (fun _ _ => true) R (fun _ _ c => c)
            (fun m c => Ok (mkPoint m c)) (fun m s e => Ok (mkGeodesic m s e))
            Am (AnIsometry An) =
    (C <- __pow__ (fun _ _ => true) (fun _ => Raise ValueError_invalid_isometry)
            (mkIsometry UHP (mkMatrix 2 [3; 1; 2; 1])) (1 + 2) ;;
     Ok (IsometryProduct C)).
Proof.
  eexists. eexists. split; [reflexivity |]. split; [reflexivity |].
  apply pow_add; [lia | lia | reflexivity | reflexivity].
Defined.

(** ** More on [==] *)

Lemma map2_add_neg (l1 l2 : list R) :
  Mat.map2 Rplus l1 (map Ropp l2) = Mat.map2 Rminus l1 l2.
Proof.
  revert l2. induction l1 as [| x l1 IH]; intros [| y l2]; simpl; try reflexivity.
  rewrite IH. f_equal.
Qed.

Lemma add_neg_sub (A B : Matrix) : Mat.add A (Mat.neg B) = Mat.sub A B.
Proof.
  unfold Mat.sub, Mat.add, Mat.same_parent, Mat.neg; cbn [dim coeffs].
  now rewrite map2_add_neg.
Qed.




Section EqualityProperties.

Variable EPSILON : R.
Variable is_isometry_group_projective : HyperbolicModel -> bool.
Variable matrix_abs : Matrix -> R.

Local Abbreviation equals :=
  (__eq__ EPSILON is_isometry_group_projective matrix_abs).

(** In a model whose isometry group is projective, [A == B] gives the
    same result, value or exception, when the matrix of [B] is negated. *)
Theorem eq_isometry_neg (A B : HyperbolicIsometry) :
  is_isometry_group_projective (domain A) = true ->
  equals A (mkIsometry (domain B) (Mat.neg (matrix B))) = equals A B.
Proof.
  intros Hp. unfold __eq__, matrix; cbn [_matrix domain].
  rewrite sub_neg_add, add_neg_sub, Hp.
  destruct (sub_add_same_parent (_matrix A) (_matrix B))
    as [(D & S & -> & ->) | [-> ->]]; cbn [bind]; [| reflexivity].
  now rewrite orb_comm.
Qed.


End EqualityProperties.


Lemma eq_isometry_neg_witness :
  __eq__ (1 / 1000000000) projective_UHP_PD abs_sum
    (mkIsometry UHP (mkMatrix 2 [1; 0; 0; 1]))
    (mkIsometry UHP (Mat.neg (mkMatrix 2 [1; 0; 0; 1]))) =
  __eq__ (1 / 1000000000) projective_UHP_PD abs_sum
    (mkIsometry UHP (mkMatrix 2 [1; 0; 0; 1]))
    (mkIsometry UHP (mkMatrix 2 [1; 0; 0; 1])).
Proof.
  apply (eq_isometry_neg (1 / 1000000000) projective_UHP_PD abs_sum
           (mkIsometry UHP (mkMatrix 2 [1; 0; 0; 1]))
           (mkIsometry UHP (mkMatrix 2 [1; 0; 0; 1]))).
  reflexivity.
Defined.


(** ** More on Lie algebras *)

Section AbelianProperties.

Variable Element : Type.
Variable element_eqb : Element -> Element -> bool.

Lemma is_abelian_incl (L : LieAlgebra Element) (G G' : list Element) :
  incl G' G ->
  is_abelian element_eqb (mkLieAlgebra (FiniteEnumeratedSet G)
                                       (zero L) (_bracket_ L)) = Ok true ->
  is_abelian element_eqb (mkLieAlgebra (FiniteEnumeratedSet G')
                                       (zero L) (_bracket_ L)) = Ok true.
Proof.
  unfold is_abelian; cbn [lie_algebra_generators zero _bracket_].
  intros Hi H. injection H as H. f_equal.
  rewrite forallb_forall in *. intros [x y] Hxy.
  apply H. apply in_prod_iff in Hxy as [Hx Hy].
  apply in_prod; apply Hi; assumption.
Qed.

(** [is_abelian] looks at the generators as a set: an algebra that is
    abelian on a family is abelian on every family drawn from it, and
    two families with the same elements, in any order and with any
    repetitions, get the same answer. *)
Theorem is_abelian_generators_as_set
    (L : LieAlgebra Element) (G G' : list Element) :
  (incl G' G ->
   is_abelian element_eqb (mkLieAlgebra (FiniteEnumeratedSet G)
                                        (zero L) (_bracket_ L)) = Ok true ->
   is_abelian element_eqb (mkLieAlgebra (FiniteEnumeratedSet G')
                                        (zero L) (_bracket_ L)) = Ok true) /\
  (incl G' G -> incl G G' ->
   is_abelian element_eqb (mkLieAlgebra (FiniteEnumeratedSet G')
                                        (zero L) (_bracket_ L)) =
   is_abelian element_eqb (mkLieAlgebra (FiniteEnumeratedSet G)
                                        (zero L) (_bracket_ L))).
Proof.
  split; [apply is_abelian_incl |].
  intros H1 H2.
  pose proof (is_abelian_incl L G G' H1) as I1.
  pose proof (is_abelian_incl L G' G H2) as I2.
  unfold is_abelian in *; cbn [lie_algebra_generators zero _bracket_] in *.
  destruct (forallb _ (list_prod G G)), (forallb _ (list_prod G' G'));
    try reflexivity.
  - discriminate (I1 eq_refl).
  - discriminate (I2 eq_refl).
Qed.

End AbelianProperties.

(** At the unit vectors of the cross product algebra, listed twice in
    different orders. *)
Lemma is_abelian_generators_as_set_witness :
  is_abelian vec3_eqb
    (mkLieAlgebra (FiniteEnumeratedSet [(0, 1, 0); (1, 0, 0); (1, 0, 0)]%Z)
                  (zero cross_product_algebra)
                  (_bracket_ cross_product_algebra)) =
  is_abelian vec3_eqb
    (mkLieAlgebra (FiniteEnumeratedSet [(1, 0, 0); (0, 1, 0)]%Z)
                  (zero cross_product_algebra)
                  (_bracket_ cross_product_algebra)).
Proof.
  apply (proj2 (is_abelian_generators_as_set Vec3 vec3_eqb
                  cross_product_algebra
                  [(1, 0, 0); (0, 1, 0)]%Z
                  [(0, 1, 0); (1, 0, 0); (1, 0, 0)]%Z)).
  - intros x Hx. cbn [In] in *. tauto.
  - intros x Hx. cbn [In] in *. tauto.
Defined.

Lemma forallb_flat_map {A B : Type} (p : B -> bool) (f : A -> list B)
    (l : list A) :
  forallb p (flat_map f l) = forallb (fun x => forallb p (f x)) l.
Proof.
  induction l as [| x l IH]; cbn [flat_map forallb]; [reflexivity |].
  now rewrite forallb_app, IH.
Qed.

Lemma flat_map_nil {A B : Type} (f : A -> list B) (l : list A) :
  (forall x, In x l -> f x = []) -> flat_map f l = [].
Proof.
  induction l as [| x l IH]; intros H; cbn [flat_map]; [reflexivity |].
  rewrite H by (left; reflexivity). cbn [app]. apply IH.
  intros y Hy. apply H. now right.
Qed.

Section JacobiTest.

Variable Element : Type.
Variable element_eqb : Element -> Element -> bool.
Variable element_add : Element -> Element -> Element.
Variable element_constructor : Element -> Element.
Hypothesis element_eqb_eq : forall x y, element_eqb x y = true <-> x = y.

(** [_test_jacobi_identity] skips every triple whose first two elements
    are equal: all its assertions hold exactly when the Jacobi sum
    vanishes on the triples [x, y, z] of test elements with [x <> y],
    and when the test elements are all equal it asserts nothing. *)
Theorem test_jacobi_identity_spec
    (L : LieAlgebra Element) (elts : list Element) :
  (all_asserted
     (_test_jacobi_identity Element element_eqb element_add
                            element_constructor L elts) = true <->
   forall x y z, In x elts -> In y elts -> In z elts -> x <> y ->
     jacobi Element element_add element_constructor L x y z = zero L) /\
  ((forall x y, In x elts -> In y elts -> x = y) ->
   _test_jacobi_identity Element element_eqb element_add
                         element_constructor L elts = []).
Proof.
  unfold all_asserted, _test_jacobi_identity. split.
  - rewrite forallb_flat_map, forallb_forall. split.
    + intros H x y z Hx Hy Hz Hxy.
      specialize (H x Hx). rewrite forallb_flat_map, forallb_forall in H.
      specialize (H y Hy).
      destruct (element_eqb x y) eqn:E.
      * apply element_eqb_eq in E. contradiction.
      * rewrite forallb_forall in H. apply element_eqb_eq.
        apply H. apply in_map_iff. exists z. now split.
    + intros H x Hx. rewrite forallb_flat_map, forallb_forall. intros y Hy.
      destruct (element_eqb x y) eqn:E; [reflexivity |].
      rewrite forallb_forall. intros b Hb.
      apply in_map_iff in Hb as (z & <- & Hz).
      apply element_eqb_eq. apply H; try assumption.
      intros ->. rewrite (proj2 (element_eqb_eq y y) eq_refl) in E.
      discriminate E.
  - intros H. apply flat_map_nil. intros x Hx.
    apply flat_map_nil. intros y Hy.
    now rewrite (proj2 (element_eqb_eq x y) (H x y Hx Hy)).
Qed.

End JacobiTest.

(** At the cross product algebra with a single test element. *)
Lemma test_jacobi_identity_spec_witness :
  _test_jacobi_identity Vec3 vec3_eqb vec3_add (fun x => x)
    cross_product_algebra [(1, 2, 3)%Z] = [].
Proof.
  apply (proj2 (test_jacobi_identity_spec Vec3 vec3_eqb vec3_add (fun x => x)
                  vec3_eqb_eq cross_product_algebra [(1, 2, 3)%Z])).
  intros x y Hx Hy. cbn [In] in *.
  destruct Hx as [<- | []]. destruct Hy as [<- | []]. reflexivity.
Defined.

(** ** The exponents 1, 0 and -1 *)

Lemma list_Reqb_refl (l : list R) : list_Reqb l l = true.
Proof.
  induction l as [| x l IH]; cbn [list_Reqb]; [reflexivity |].
  now rewrite (proj2 (Reqb_true x x) eq_refl), IH.
Qed.

Section UnitExponents.

Variable isometry_in_model : HyperbolicModel -> Matrix -> bool.
Variable matrix_inverse : Matrix -> result Matrix.

(** For an isometry [A]: when its matrix is well formed and passes the
    validity test, [A ** 1] is [A]; whenever [A ** 0] is an isometry, it
    is the identity; when the inverse [P] of the matrix is well formed,
    [A ** -1] is what the constructor makes of [P] in the model of [A],
    the isometry with matrix [P] or the constructor's exception; and
    [A.inverse()], which reads [self._model] where [__pow__] calls
    [self.domain()], raises [AttributeError] instead. *)
Theorem pow_unit_exponents (A : HyperbolicIsometry) :
  (well_formed (_matrix A) ->
   isometry_in_model (domain A) (_matrix A) = true ->
   __pow__ isometry_in_model matrix_inverse A 1 = Ok A) /\
  (forall E, __pow__ isometry_in_model matrix_inverse A 0 = Ok E ->
             is_identity E = true /\ domain E = domain A) /\
  (forall P, matrix_inverse (_matrix A) = Ok P -> well_formed P ->
             __pow__ isometry_in_model matrix_inverse A (-1) =
             __init__ isometry_in_model (domain A) P) /\
  inverse isometry_in_model matrix_inverse A =
  Raise (AttributeError "_model").
Proof.
  unfold __pow__, matrix_power, matrix, inverse.
  change (1 <? 0)%Z with false. change (0 <? 0)%Z with false.
  change (-1 <? 0)%Z with true.
  change (Z.to_nat 1) with 1%nat. change (Z.to_nat 0) with 0%nat.
  change (Z.to_nat (- -1)) with 1%nat.
  cbn [pow_nat bind].
  split; [| split; [| split]].
  - intros Hw Hv. rewrite mul_identity_r by exact Hw. cbn [bind].
    unfold __init__, isometry_test. rewrite Hv. cbn [bind].
    now destruct A.
  - intros E. unfold __init__, isometry_test.
    destruct (isometry_in_model _ _); cbn [bind]; [| discriminate].
    intros H. injection H as <-. split; [| reflexivity].
    unfold is_identity, is_one. cbn [_matrix dim identity_matrix].
    apply list_Reqb_refl.
  - intros P HP Hw. rewrite HP. cbn [bind].
    now rewrite mul_identity_r by exact Hw.
  - reflexivity.
Qed.

End UnitExponents.

(** At the doctest matrix [[3,1],[2,1]]. *)
Lemma pow_unit_exponents_witness :
  __pow__ (fun _ _ => true) (fun _ => Raise ValueError_invalid_isometry)
    (mkIsometry UHP (mkMatrix 2 [3; 1; 2; 1])) 1 =
  Ok (mkIsometry UHP (mkMatrix 2 [3; 1; 2; 1])).
Proof.
  apply (pow_unit_exponents (fun _ _ => true)
           (fun _ => Raise ValueError_invalid_isometry)
           (mkIsometry UHP (mkMatrix 2 [3; 1; 2; 1]))); reflexivity.
Defined.

(** ** Abelian algebras and the antisymmetry test *)

(** When [is_abelian] returns [True] and converting a generator into
    the algebra gives the generator back, [_test_antisymmetry] run on
    the generators asserts only true conditions. *)
Theorem abelian_passes_antisymmetry
    (Element : Type) (element_eqb : Element -> Element -> bool)
    (element_constructor : Element -> Element)
    (L : LieAlgebra Element) (G : list Element) :
  lie_algebra_generators L = FiniteEnumeratedSet G ->
  (forall x, In x G -> element_constructor x = x) ->
  is_abelian element_eqb L = Ok true ->
  all_asserted
    (_test_antisymmetry Element element_eqb element_constructor L G) = true.
Proof.
  unfold is_abelian, all_asserted, _test_antisymmetry, bracket.
  intros -> Hc H. injection H as H.
  rewrite forallb_forall in *. intros b Hb.
  apply in_map_iff in Hb as (x & <- & Hx).
  rewrite (Hc x Hx). apply (H (x, x)). now apply in_prod.
Qed.

(** At the zero bracket on integer vectors. *)
Lemma abelian_passes_antisymmetry_witness :
  all_asserted
    (_test_antisymmetry Vec3 vec3_eqb (fun x => x)
       (mkLieAlgebra (FiniteEnumeratedSet [(1, 0, 0); (0, 1, 0)]%Z)
                     (0, 0, 0)%Z (fun _ _ => (0, 0, 0)%Z))
       [(1, 0, 0); (0, 1, 0)]%Z) = true.
Proof.
  apply (abelian_passes_antisymmetry Vec3 vec3_eqb (fun x => x)
           (mkLieAlgebra (FiniteEnumeratedSet [(1, 0, 0); (0, 1, 0)]%Z)
                         (0, 0, 0)%Z (fun _ _ => (0, 0, 0)%Z))).
  - reflexivity.
  - reflexivity.
  - reflexivity.
Defined.

(** ** The point and geodesic branches of [*] *)

Section PointAndGeodesic.

Variable isometry_in_model : HyperbolicModel -> Matrix -> bool.
Variable Coordinates : Type.
Variable isometry_act_on_point :
  HyperbolicModel -> Matrix -> Coordinates -> Coordinates.
Variable get_point :
  HyperbolicModel -> Coordinates -> result (HyperbolicPoint Coordinates).
Variable get_geodesic :
  HyperbolicModel -> HyperbolicPoint Coordinates ->
  HyperbolicPoint Coordinates -> result (HyperbolicGeodesic Coordinates).

(** For a point or a geodesic [x], [A * x] never returns: it raises
    the TypeError of differing models when the model names differ, and
    otherwise [AttributeError], because both branches read
    [self._model], which nothing assigns. *)
Theorem mul_point_geodesic_raises
    (A : HyperbolicIsometry) (x : Operand Coordinates) :
  (exists p, x = APoint p) \/ (exists g, x = AGeodesic g) ->
  __mul__ isometry_in_model Coordinates isometry_act_on_point
          get_point get_geodesic A x =
  if String.eqb (model_name A) (operand_model_name Coordinates x)
  then Raise (AttributeError "_model")
  else Raise TypeError_not_same_model.
Proof.
  intros [[p ->] | [g ->]]; unfold __mul__, mul_point;
    cbn [operand_model_name];
    destruct (String.eqb (model_name A) _); reflexivity.
Qed.

End PointAndGeodesic.

(** At the doctest: the UHP isometry of [[5,2],[1,2]] and a point of
    UHP. *)
Lemma mul_point_geodesic_raises_witness :
  __mul__ (fun _ _ => true) R (fun _ _ c => c)
          (fun m c => Ok (mkPoint m c)) (fun m s e => Ok (mkGeodesic m s e))
          (mkIsometry UHP (mkMatrix 2 [5; 2; 1; 2]))
          (APoint (mkPoint UHP 2)) =
  Raise (AttributeError "_model").
Proof.
  apply (mul_point_geodesic_raises (fun _ _ => true) R (fun _ _ c => c)
           (fun m c => Ok (mkPoint m c))
           (fun m s e => Ok (mkGeodesic m s e))
           (mkIsometry UHP (mkMatrix 2 [5; 2; 1; 2]))
           (APoint (mkPoint UHP 2))).
  left. eexists. reflexivity.
Defined.

(** ** [translation_length] as the module is *)

(** As the module is, [translation_length] raises [NameError] for the
    unbound name [sqrt] on every matrix: the name is read before the
    classification is looked at. *)
Theorem translation_length_raises_NameError
    (EPSILON : R) (arccosh : R -> R) (A : Matrix2) :
  UHP_translation_length EPSILON arccosh module_globals A =
  Raise (NameError "sqrt").
Proof.
  unfold UHP_translation_length. rewrite load_global_sqrt. reflexivity.
Qed.

